(** * ResponsiveReactGridLayout: the responsive controller of react-grid-layout

    A shallow embedding of [src/lib/ResponsiveReactGridLayout.jsx].

    JavaScript objects used as maps from breakpoint names (the props
    [breakpoints], [cols] and [layouts]) are finite maps with string keys.
    They are passed by reference, and the component both compares them by
    identity ([!==]) and writes into one of them, so the props hold
    addresses into a store and the store holds the objects.

    The component's imports from [./utils] and [./responsiveUtils] are
    interfaces here (type classes); the controller is verified against any
    implementation of them.  Instances following the written
    specification are given for the breakpoint resolver and the layout
    synchronizer. *)

From stdpp Require Import base strings gmap list sorting.
From Stdlib Require Import ZArith Lia.

Local Open Scope string_scope.
Local Open Scope list_scope.
Local Open Scope Z_scope.

(** ** Data model *)

(** A grid item: identifier, position, size, optional bounds, static flag. *)
Record LayoutItem := mkLayoutItem {
  i : string;
  x : Z;
  y : Z;
  w : Z;
  h : Z;
  minW : option Z;
  maxW : option Z;
  minH : option Z;
  maxH : option Z;
  static : bool
}.

Global Instance LayoutItem_eq_dec : EqDecision LayoutItem.
Proof. solve_decision. Defined.

Definition Layout := list LayoutItem.

(** [compactType]: "vertical", "horizontal", or unset. *)
Inductive CompactType := Vertical | Horizontal | NoCompaction.

Global Instance CompactType_eq_dec : EqDecision CompactType.
Proof. solve_decision. Defined.

(** A rendered child: its key and, when it declares one, its size. *)
Record Child := mkChild {
  key : string;
  sizeHint : option (Z * Z)
}.

Definition Children := list Child.

(** ** BreakpointResolver *)

(** Descending order of thresholds on the entries of a breakpoints map. *)
Definition threshold_ge (a b : string * Z) : Prop := b.2 ≤ a.2.

Global Instance threshold_ge_dec : RelDecision threshold_ge.
Proof. intros a b. unfold threshold_ge. apply _. Defined.

(** Modelled from the spec: [sortBreakpoints] of [./responsiveUtils], which
    is not among the sources.  "sorts breakpoint entries by threshold
    descending". *)
Definition sortBreakpoints (breakpoints : gmap string Z) : list (string * Z) :=
  merge_sort threshold_ge (map_to_list breakpoints).

(** Modelled from the spec: [resolveBreakpoint], the [getBreakpointFromWidth]
    of [./responsiveUtils], which is not among the sources.  "returns the
    name of the first entry whose threshold ≤ width; if none qualifies,
    returns the entry with the smallest threshold".  An empty map has no
    entry to return. *)
Definition resolveBreakpoint (breakpoints : gmap string Z) (width : Z)
  : option string :=
  let sorted := sortBreakpoints breakpoints in
  match List.find (λ e, bool_decide (e.2 ≤ width)) sorted with
  | Some e => Some e.1
  | None => fst <$> last sorted
  end.

(** Modelled from the spec: [resolveColumns], the [getColsFromBreakpoint] of
    [./responsiveUtils], which is not among the sources.  "direct lookup;
    fails with a ConfigError if breakpoint has no entry" ([None]). *)
Definition resolveColumns (breakpoint : string) (cols : gmap string Z)
  : option Z :=
  cols !! breakpoint.

(** [defaultProps.breakpoints] and [defaultProps.cols]. *)
Definition defaultBreakpoints : gmap string Z :=
  <["lg" := 1200]> (<["md" := 996]> (<["sm" := 768]>
    (<["xs" := 480]> (<["xxs" := 0]> ∅)))).

Definition defaultCols : gmap string Z :=
  <["lg" := 12]> (<["md" := 10]> (<["sm" := 6]>
    (<["xs" := 4]> (<["xxs" := 2]> ∅)))).


(** ** LayoutSynchronizer *)

(** Two placements overlap when their rectangles share a cell. *)
Definition overlaps (a b : LayoutItem) : bool :=
  (x a <? x b + w b) && (x b <? x a + w a) &&
  (y a <? y b + h b) && (y b <? y a + h a).

Definition moveTo (it : LayoutItem) (x' y' : Z) : LayoutItem :=
  mkLayoutItem (i it) x' y' (w it) (h it)
               (minW it) (maxW it) (minH it) (maxH it) (static it).

Definition resize (it : LayoutItem) (x' w' : Z) : LayoutItem :=
  mkLayoutItem (i it) x' (y it) w' (h it)
               (minW it) (maxW it) (minH it) (maxH it) (static it).

(** No obstacle overlaps the placement. *)
Definition free (obstacles : Layout) (it : LayoutItem) : bool :=
  forallb (λ o, negb (overlaps it o)) obstacles.

(** First row below, and first column right of, every item. *)
Definition bottom (layout : Layout) : Z :=
  foldr (λ o acc, Z.max (y o + h o) acc) 0 layout.

Definition rightEdge (layout : Layout) : Z :=
  foldr (λ o acc, Z.max (x o + w o) acc) 0 layout.

(** The minimum row (column) at which the item, keeping its other
    coordinates, overlaps no obstacle. *)
Definition minFreeY (obstacles : Layout) (it : LayoutItem) : Z :=
  let limit := bottom obstacles in
  default limit
    (List.find (λ y', free obstacles (moveTo it (x it) y')) (seqZ 0 limit)).

Definition minFreeX (obstacles : Layout) (it : LayoutItem) : Z :=
  let limit := rightEdge obstacles in
  default limit
    (List.find (λ x', free obstacles (moveTo it x' (y it))) (seqZ 0 limit)).

Definition pullUp (obstacles : Layout) (it : LayoutItem) : LayoutItem :=
  moveTo it (x it) (minFreeY obstacles it).

Definition pullLeft (obstacles : Layout) (it : LayoutItem) : LayoutItem :=
  moveTo it (minFreeX obstacles it) (y it).

(** Clamping into [0, columns). *)
Definition clamp (columns : Z) (it : LayoutItem) : LayoutItem :=
  let w' := Z.min (w it) columns in
  resize it (Z.max 0 (Z.min (x it) (columns - w'))) w'.

(** Items are placed in order; static items stay where they are and are
    obstacles from the start, every placed item is an obstacle for the
    ones after it. *)
Fixpoint place (pull : Layout → LayoutItem → LayoutItem)
    (obstacles : Layout) (items : Layout) : Layout :=
  match items with
  | [] => []
  | it :: rest =>
      if static it then it :: place pull obstacles rest
      else
        let it' := pull obstacles it in
        it' :: place pull (it' :: obstacles) rest
  end.

(** Modelled from the spec: compaction, the [compact] of [./utils], which
    is not among the sources.  "vertical: items are pulled upward (minimum
    y) in order, non-static items may not overlap, static items are
    obstacles.  horizontal: same, pulled leftward.  none: no repositioning
    beyond clamping into [0, columns)." *)
Definition compact (layout : Layout) (compactType : CompactType)
    (columns : Z) : Layout :=
  match compactType with
  | Vertical => place pullUp (List.filter static layout) layout
  | Horizontal => place pullLeft (List.filter static layout) layout
  | NoCompaction =>
      (λ it, if static it then it else clamp columns it) <$> layout
  end.

(** Cells of the grid's first [rows] rows in scanning order: "row-major for
    vertical/none, column-major for horizontal". *)
Definition cells (compactType : CompactType) (columns rows : Z)
  : list (Z * Z) :=
  match compactType with
  | Horizontal =>
      x' ← seqZ 0 columns; y' ← seqZ 0 rows; [(x', y')]
  | _ =>
      y' ← seqZ 0 rows; x' ← seqZ 0 columns; [(x', y')]
  end.

(** A new item for a child without an entry: "a default size (1×1, or
    item-declared defaults if liveItemIds carries size hints) and an
    auto-placed position chosen by compaction order (top-left-most free
    cell respecting existing items)".  The row just below every existing
    item is free, so the scan stops there. *)
Definition autoPlace (existing : Layout) (columns : Z)
    (compactType : CompactType) (child : Child) : LayoutItem :=
  let size := default (1, 1) (sizeHint child) in
  let blank :=
    mkLayoutItem (key child) 0 0 size.1 size.2 None None None None false in
  let rows := bottom existing + 1 in
  match List.find (λ c, free existing (moveTo blank c.1 c.2))
                  (cells compactType columns rows) with
  | Some c => moveTo blank c.1 c.2
  | None => moveTo blank 0 (bottom existing)
  end.

Definition hasItem (layout : Layout) (id : string) : bool :=
  bool_decide (id ∈ i <$> layout).

(** "for every id in liveItemIds absent from layout, appends a new
    GridItem". *)
Fixpoint addMissing (live : Children) (columns : Z)
    (compactType : CompactType) (layout : Layout) : Layout :=
  match live with
  | [] => layout
  | child :: rest =>
      addMissing rest columns compactType
        (if hasItem layout (key child) then layout
         else layout ++ [autoPlace layout columns compactType child])
  end.

(** "For every item in layout whose id is absent from liveItemIds, removes
    it." *)
Definition removeStale (live : Children) (layout : Layout) : Layout :=
  List.filter (λ it, bool_decide (i it ∈ key <$> live)) layout.

(** Modelled from the spec: [synchronize], the
    [synchronizeLayoutWithChildren] of [./utils], which is not among the
    sources: add the missing items, drop the stale ones, "then re-applies
    compaction per compactType". *)
Definition synchronize (layout : Layout) (liveItemIds : Children)
    (columns : Z) (compactType : CompactType) : Layout :=
  compact
    (removeStale liveItemIds
       (addMissing liveItemIds columns compactType layout))
    compactType columns.

(** ** LayoutGenerator *)

(** Modelled from the spec: [findOrGenerate], the
    [findOrGenerateResponsiveLayout] of [./responsiveUtils], which is not
    among the sources.  Steps 1 to 3 follow the text: the stored layout of
    the target; else the first stored layout among the breakpoints above
    the target's threshold, nearest first; else the fallback's layout, or
    the empty layout.  Step 4 scales "from its original column count",
    which no argument carries: the basis keeps its coordinates, is clamped
    into the new column count and compacted.  Layouts are values, a copy
    is the value itself. *)
Definition findOrGenerate (layoutsByBreakpoint : gmap string Layout)
    (breakpoints : gmap string Z) (targetBreakpoint fallbackBreakpoint : string)
    (columns : Z) (compactType : CompactType) : Layout :=
  match layoutsByBreakpoint !! targetBreakpoint with
  | Some stored => stored
  | None =>
      let above :=
        match breakpoints !! targetBreakpoint with
        | Some t =>
            List.filter (λ e : string * Z, t <? e.2) (sortBreakpoints breakpoints)
        | None => []
        end in
      let basis :=
        match List.find (λ e : string * Z,
                           bool_decide (is_Some (layoutsByBreakpoint !! e.1)))
                        (reverse above) with
        | Some e => default [] (layoutsByBreakpoint !! e.1)
        | None => default [] (layoutsByBreakpoint !! fallbackBreakpoint)
        end in
      compact (clamp columns <$> basis) compactType columns
  end.

(** ** The imported interfaces *)

(** What the component imports from [./utils]. *)
Class Utils := {
  cloneLayout : Layout → Layout;
  synchronizeLayoutWithChildren :
    Layout → Children → Z → CompactType → Layout
}.

(** What the component imports from [./responsiveUtils].  A missing column
    entry is an exception of [getColsFromBreakpoint] ([None]). *)
Class ResponsiveUtils := {
  getBreakpointFromWidth : gmap string Z → Z → string;
  getColsFromBreakpoint : string → gmap string Z → option Z;
  findOrGenerateResponsiveLayout :
    gmap string Layout → gmap string Z → string → string → Z →
    CompactType → Layout
}.

(** The implementations the specification describes.  A resolver with no
    breakpoint to return yields JavaScript's [undefined], which reads
    "undefined" where a name is expected. *)
Definition specUtils : Utils := {|
  cloneLayout := λ layout, layout;
  synchronizeLayoutWithChildren := synchronize
|}.

Definition specResponsiveUtils : ResponsiveUtils := {|
  getBreakpointFromWidth := λ breakpoints width,
    default "undefined" (resolveBreakpoint breakpoints width);
  getColsFromBreakpoint := resolveColumns;
  findOrGenerateResponsiveLayout := findOrGenerate
|}.

(** ** Props, state and the store *)

(** Address of an object. *)
Definition loc := nat.

(** The props the component reads.  [breakpoints], [cols] and [layouts] are
    references to objects in the store. *)
Module Props.
Record t := mk {
  breakpoint : option string;
  breakpoints : loc;
  cols : loc;
  layouts : loc;
  width : Z;
  viewportWidth : Z;
  breakpointFromViewport : bool;
  compactType : CompactType;
  verticalCompact : bool;
  margin : Z * Z;
  containerPadding : option (Z * Z);
  children : Children
}.

Definition withWidth (width' : Z) (p : t) : t :=
  mk (breakpoint p) (breakpoints p) (cols p) (layouts p) width'
     (viewportWidth p) (breakpointFromViewport p) (compactType p)
     (verticalCompact p) (margin p) (containerPadding p) (children p).

Definition withBreakpoint (breakpoint' : option string) (p : t) : t :=
  mk breakpoint' (breakpoints p) (cols p) (layouts p) (width p)
     (viewportWidth p) (breakpointFromViewport p) (compactType p)
     (verticalCompact p) (margin p) (containerPadding p) (children p).
End Props.

(** [type State]. *)
Module State.
Record t := mk {
  layout : Layout;
  breakpoint : string;
  cols : Z;
  width : Z
}.
End State.

(** The objects props refer to: name → number maps ([breakpoints], [cols])
    and name → Layout maps ([layouts]).  A reference to nothing reads as
    the empty object. *)
Record Store := mkStore {
  numberMaps : gmap loc (gmap string Z);
  layoutMaps : gmap loc (gmap string Layout)
}.

(** The member names every plain object inherits from [Object.prototype]. *)
Definition objectPrototypeNames : list string :=
  ["constructor"; "hasOwnProperty"; "isPrototypeOf"; "propertyIsEnumerable";
   "toLocaleString"; "toString"; "valueOf"; "__proto__";
   "__defineGetter__"; "__defineSetter__"; "__lookupGetter__";
   "__lookupSetter__"].

(** [name in object], for a plain object: an entry of its own, or a member
    inherited from [Object.prototype]. *)
Definition inObject {A} (name : string) (object : gmap string A) : bool :=
  bool_decide (is_Some (object !! name))
  || bool_decide (name ∈ objectPrototypeNames).

(** Calls of the host's callbacks, with their arguments.  An object
    argument is recorded with the contents it has at the call. *)
Inductive Callback :=
  | OnInit (initState : State.t)
  | OnBreakpointChange (breakpoint : string) (cols : Z)
  | OnLayoutChange (layout : Layout) (layouts : gmap string Layout)
  | OnWidthChange (containerWidth : Z) (margin : Z * Z) (cols : Z)
                  (containerPadding : option (Z * Z)).

(** What a method runs in: [this.state], the store, and the callbacks fired
    so far, oldest first. *)
Record World := mkWorld {
  state : State.t;
  store : Store;
  fired : list Callback
}.

(** The exception of a column lookup that finds no entry. *)
Inductive Exception := ConfigurationError (breakpoint : string).

Inductive Outcome (A : Type) :=
  | Returns (a : A) (σ : World)
  | Throws (exception : Exception) (σ : World).
Arguments Returns {A} a σ.
Arguments Throws {A} exception σ.

Definition Action (A : Type) : Type := World → Outcome A.

Global Instance Action_ret : MRet Action := λ A a σ, Returns a σ.

Global Instance Action_bind : MBind Action := λ A B f m σ,
  match m σ with
  | Returns a σ' => f a σ'
  | Throws exception σ' => Throws exception σ'
  end.

Definition getState : Action State.t := λ σ, Returns (state σ) σ.

(** [this.setState(partial)]: the given fields replace the state's. *)
Definition setState (partial : State.t → State.t) : Action unit := λ σ,
  Returns tt (mkWorld (partial (state σ)) (store σ) (fired σ)).

Definition readNumbers (l : loc) : Action (gmap string Z) := λ σ,
  Returns (numberMaps (store σ) !!! l) σ.

Definition readLayouts (l : loc) : Action (gmap string Layout) := λ σ,
  Returns (layoutMaps (store σ) !!! l) σ.

(** [object[name] = layout], on the object itself.  The name "__proto__"
    is stored like any other; in JavaScript assigning to it sets the
    object's prototype instead. *)
Definition assignLayout (l : loc) (name : string) (layout : Layout)
  : Action unit := λ σ,
  let object := layoutMaps (store σ) !!! l in
  Returns tt
    (mkWorld (state σ)
       (mkStore (numberMaps (store σ))
                (<[l := <[name := layout]> object]> (layoutMaps (store σ))))
       (fired σ)).

Definition call (callback : Callback) : Action unit := λ σ,
  Returns tt (mkWorld (state σ) (store σ) (fired σ ++ [callback])).

Definition throw {A} (exception : Exception) : Action A := λ σ,
  Throws exception σ.

Definition orThrow {A} (result : option A) (exception : Exception)
  : Action A :=
  match result with
  | Some a => mret a
  | None => throw exception
  end.

(** lodash's [isEqual] on two references: equal contents. *)
Definition isEqualNumbers (a b : loc) : Action bool := λ σ,
  Returns (bool_decide (numberMaps (store σ) !!! a = numberMaps (store σ) !!! b)) σ.

Definition isEqualLayouts (a b : loc) : Action bool := λ σ,
  Returns (bool_decide (layoutMaps (store σ) !!! a = layoutMaps (store σ) !!! b)) σ.

(** ** ResponsiveReactGridLayout *)

Section Component.
Context `{!Utils, !ResponsiveUtils}.

(** [breakpointFromViewport ? viewportWidth : width] *)
Definition widthForBreakpoint (props : Props.t) : Z :=
  if Props.breakpointFromViewport props then Props.viewportWidth props
  else Props.width props.

(** [nextProps.breakpoint || getBreakpointFromWidth(...)]: an override
    that is unset or the empty string is falsy. *)
Definition newBreakpoint (breakpoints : gmap string Z)
    (nextProps : Props.t) : string :=
  match Props.breakpoint nextProps with
  | Some name =>
      if decide (name = "") then
        getBreakpointFromWidth breakpoints (widthForBreakpoint nextProps)
      else name
  | None =>
      getBreakpointFromWidth breakpoints (widthForBreakpoint nextProps)
  end.

Definition generateInitialState (props : Props.t) : Action State.t :=
  breakpoints ← readNumbers (Props.breakpoints props);
  layouts ← readLayouts (Props.layouts props);
  cols ← readNumbers (Props.cols props);
  let breakpoint :=
    getBreakpointFromWidth breakpoints (widthForBreakpoint props) in
  colNo ← orThrow (getColsFromBreakpoint breakpoint cols)
                  (ConfigurationError breakpoint);
  let compactType :=
    if Props.verticalCompact props then Props.compactType props
    else NoCompaction in
  let initialLayout :=
    findOrGenerateResponsiveLayout layouts breakpoints breakpoint
      breakpoint colNo compactType in
  let initState :=
    State.mk initialLayout breakpoint colNo (Props.width props) in
  call (OnInit initState);;
  mret initState.

Definition onWidthChange (props nextProps : Props.t) : Action unit :=
  breakpoints ← readNumbers (Props.breakpoints nextProps);
  cols ← readNumbers (Props.cols nextProps);
  let layouts := Props.layouts nextProps in
  let compactType := Props.compactType nextProps in
  let newBreakpoint := newBreakpoint breakpoints nextProps in
  this_state ← getState;
  let lastBreakpoint := State.breakpoint this_state in
  newCols ← orThrow (getColsFromBreakpoint newBreakpoint cols)
                    (ConfigurationError newBreakpoint);
  (* Breakpoint change *)
  (if bool_decide (lastBreakpoint ≠ newBreakpoint)
      || bool_decide (Props.breakpoints props ≠ Props.breakpoints nextProps)
      || bool_decide (Props.cols props ≠ Props.cols nextProps)
   then
     (* Preserve the current layout if the current breakpoint is not
        present in the next layouts. *)
     present ← readLayouts layouts;
     (if inObject lastBreakpoint present then mret tt
      else assignLayout layouts lastBreakpoint
             (cloneLayout (State.layout this_state)));;
     (* Find or generate a new layout. *)
     current ← readLayouts layouts;
     let layout :=
       findOrGenerateResponsiveLayout current breakpoints newBreakpoint
         lastBreakpoint newCols compactType in
     (* This adds missing items. *)
     let layout :=
       synchronizeLayoutWithChildren layout (Props.children nextProps)
         newCols compactType in
     (* Store the new layout. *)
     assignLayout layouts newBreakpoint layout;;
     (* callbacks *)
     call (OnBreakpointChange newBreakpoint newCols);;
     stored ← readLayouts layouts;
     call (OnLayoutChange layout stored);;
     setState (λ s, State.mk layout newBreakpoint newCols (State.width s))
   else mret tt);;
  (* call onWidthChange on every change of width, not only on breakpoint
     changes *)
  call (OnWidthChange (Props.width nextProps) (Props.margin nextProps)
          newCols (Props.containerPadding nextProps)).

Definition componentWillReceiveProps (props nextProps : Props.t)
  : Action unit :=
  sameBreakpoints ←
    isEqualNumbers (Props.breakpoints nextProps) (Props.breakpoints props);
  sameCols ← isEqualNumbers (Props.cols nextProps) (Props.cols props);
  sameLayouts ←
    isEqualLayouts (Props.layouts nextProps) (Props.layouts props);
  (* Allow parent to set width or breakpoint directly. *)
  if bool_decide (Props.width nextProps ≠ Props.width props)
     || bool_decide (Props.viewportWidth nextProps ≠ Props.viewportWidth props)
     || bool_decide (Props.breakpoint nextProps ≠ Props.breakpoint props)
     || negb sameBreakpoints
     || negb sameCols
  then onWidthChange props nextProps
  else if negb sameLayouts then
    (* Allow parent to set layouts directly. *)
    this_state ← getState;
    let breakpoint := State.breakpoint this_state in
    let cols := State.cols this_state in
    layouts ← readLayouts (Props.layouts nextProps);
    breakpoints ← readNumbers (Props.breakpoints nextProps);
    let newLayout :=
      findOrGenerateResponsiveLayout layouts breakpoints breakpoint
        breakpoint cols (Props.compactType nextProps) in
    setState (λ s, State.mk newLayout (State.breakpoint s) (State.cols s)
                            (State.width s))
  else mret tt.

(** The wrapper handed to the grid renderer as its [onLayoutChange]:
    [{...this.props.layouts, [this.state.breakpoint]: layout}] is a new
    object. *)
Definition onLayoutChange (props : Props.t) (layout : Layout)
  : Action unit :=
  layouts ← readLayouts (Props.layouts props);
  this_state ← getState;
  call (OnLayoutChange layout
          (<[State.breakpoint this_state := layout]> layouts)).

(** *** Vocabulary of the transition *)

(** Branch (a): lines 176 to 182. *)
Definition widthAffectingChange (s : Store) (props nextProps : Props.t)
  : bool :=
  bool_decide (Props.width nextProps ≠ Props.width props)
  || bool_decide (Props.viewportWidth nextProps ≠ Props.viewportWidth props)
  || bool_decide (Props.breakpoint nextProps ≠ Props.breakpoint props)
  || negb (bool_decide (numberMaps s !!! Props.breakpoints nextProps
                        = numberMaps s !!! Props.breakpoints props))
  || negb (bool_decide (numberMaps s !!! Props.cols nextProps
                        = numberMaps s !!! Props.cols props)).

(** Branch (b)'s test: line 184. *)
Definition layoutsChange (s : Store) (props nextProps : Props.t) : bool :=
  negb (bool_decide (layoutMaps s !!! Props.layouts nextProps
                     = layoutMaps s !!! Props.layouts props)).

(** The test guarding the breakpoint change: lines 233 to 237. *)
Definition breakpointChange (props nextProps : Props.t)
    (lastBreakpoint newBreakpoint : string) : bool :=
  bool_decide (lastBreakpoint ≠ newBreakpoint)
  || bool_decide (Props.breakpoints props ≠ Props.breakpoints nextProps)
  || bool_decide (Props.cols props ≠ Props.cols nextProps).

(** The same test as the specification words it: the two maps compared
    by value. *)
Definition breakpointChangeByValue (s : Store) (props nextProps : Props.t)
    (lastBreakpoint newBreakpoint : string) : bool :=
  bool_decide (lastBreakpoint ≠ newBreakpoint)
  || negb (bool_decide (numberMaps s !!! Props.breakpoints props
                        = numberMaps s !!! Props.breakpoints nextProps))
  || negb (bool_decide (numberMaps s !!! Props.cols props
                        = numberMaps s !!! Props.cols nextProps)).

(** The breakpoint and column count of a transition to [nextProps]. *)
Definition nextBreakpoint (s : Store) (nextProps : Props.t) : string :=
  newBreakpoint (numberMaps s !!! Props.breakpoints nextProps) nextProps.

Definition nextCols (s : Store) (nextProps : Props.t) : option Z :=
  getColsFromBreakpoint (nextBreakpoint s nextProps)
    (numberMaps s !!! Props.cols nextProps).

(** The layouts object of [nextProps] once the current layout is
    preserved in it: lines 238 to 240. *)
Definition preservedLayouts (σ : World) (nextProps : Props.t)
  : gmap string Layout :=
  let object := layoutMaps (store σ) !!! Props.layouts nextProps in
  let lastBreakpoint := State.breakpoint (state σ) in
  if inObject lastBreakpoint object then object
  else <[lastBreakpoint := cloneLayout (State.layout (state σ))]> object.

(** The synchronized layout of the new breakpoint: lines 242 to 258. *)
Definition nextLayout (σ : World) (nextProps : Props.t) (newCols : Z)
  : Layout :=
  synchronizeLayoutWithChildren
    (findOrGenerateResponsiveLayout
       (preservedLayouts σ nextProps)
       (numberMaps (store σ) !!! Props.breakpoints nextProps)
       (nextBreakpoint (store σ) nextProps)
       (State.breakpoint (state σ)) newCols (Props.compactType nextProps))
    (Props.children nextProps) newCols (Props.compactType nextProps).

(** The layouts object of [nextProps] after line 261. *)
Definition storedLayouts (σ : World) (nextProps : Props.t) (newCols : Z)
  : gmap string Layout :=
  <[nextBreakpoint (store σ) nextProps := nextLayout σ nextProps newCols]>
    (preservedLayouts σ nextProps).

(** The layout branch (b) derives: lines 190 to 197. *)
Definition derivedLayout (σ : World) (nextProps : Props.t) : Layout :=
  findOrGenerateResponsiveLayout
    (layoutMaps (store σ) !!! Props.layouts nextProps)
    (numberMaps (store σ) !!! Props.breakpoints nextProps)
    (State.breakpoint (state σ)) (State.breakpoint (state σ))
    (State.cols (state σ)) (Props.compactType nextProps).
End Component.

Definition worldOf {A} (outcome : Outcome A) : World :=
  match outcome with
  | Returns _ σ => σ
  | Throws _ σ => σ
  end.

Definition isOnWidthChange (callback : Callback) : bool :=
  match callback with
  | OnWidthChange _ _ _ _ => true
  | _ => false
  end.

(** ** A host session *)

(** Two items on a twelve-column grid, authored for "lg". *)
Definition twoItems : Layout :=
  [mkLayoutItem "a" 0 0 2 2 None None None None false;
   mkLayoutItem "b" 2 0 2 2 None None None None false].

Definition swapped : Layout :=
  [mkLayoutItem "a" 2 0 2 2 None None None None false;
   mkLayoutItem "b" 0 0 2 2 None None None None false].

Definition twoChildren : Children := [mkChild "a" None; mkChild "b" None].

(** The host's objects.  Number maps: 1 the breakpoints, 2 the columns,
    3 a second object with the contents of 1.  Layout maps: 1 the layouts
    {lg: twoItems}, 2 the layouts {lg: swapped}. *)
Definition hostStore : Store :=
  mkStore
    (<[1%nat := defaultBreakpoints]>
       (<[2%nat := defaultCols]> (<[3%nat := defaultBreakpoints]> ∅)))
    (<[1%nat := <["lg" := twoItems]> ∅]>
       (<[2%nat := <["lg" := swapped]> ∅]> ∅)).

(** Width 1300, resolved to "lg". *)
Definition wideProps : Props.t :=
  Props.mk None 1%nat 2%nat 1%nat 1300 1300 false Vertical true
           (10, 10) None twoChildren.

Definition wideWorld : World :=
  mkWorld (State.mk twoItems "lg" 12 1300) hostStore [].

(** The same props with the breakpoints given as a new object of equal
    contents, and width 1250. *)
Definition freshMapProps : Props.t :=
  Props.mk None 3%nat 2%nat 1%nat 1250 1300 false Vertical true
           (10, 10) None twoChildren.

(** The same props with another layouts object. *)
Definition newLayoutsProps : Props.t :=
  Props.mk None 1%nat 2%nat 2%nat 1300 1300 false Vertical true
           (10, 10) None twoChildren.

(** ** Rendering *)

(** The props [render] hands to the grid renderer: those of the component
    without [breakpoint], [breakpoints], [cols], [layouts] and the host's
    callbacks ([...other]), with [layout] and [cols] from the state.  The
    renderer's [onLayoutChange] is the component's own [onLayoutChange]. *)
Module Rendered.
Record t := mk {
  width : Z;
  viewportWidth : Z;
  breakpointFromViewport : bool;
  compactType : CompactType;
  verticalCompact : bool;
  margin : Z * Z;
  containerPadding : option (Z * Z);
  children : Children;
  layout : Layout;
  cols : Z
}.
End Rendered.

Definition render (props : Props.t) : Action Rendered.t :=
  this_state ← getState;
  mret (Rendered.mk (Props.width props) (Props.viewportWidth props)
          (Props.breakpointFromViewport props) (Props.compactType props)
          (Props.verticalCompact props) (Props.margin props)
          (Props.containerPadding props) (Props.children props)
          (State.layout this_state) (State.cols this_state)).

(** ** The [layouts] prop type *)

(** What the validator of [propTypes.layouts] throws. *)
Inductive PropTypeError :=
  | NotAnObject
  | KeyNotInBreakpoints
  | InvalidLayout (contextName : string) (message : string).

Section PropTypes.
(** [validateLayout] of [./utils]: [Some message] when it throws. *)
Context (validateLayout : Layout → string → option string).

(** The body of the [forEach] at one key: lines 85 to 90. *)
Definition checkLayoutsKey (breakpoints : gmap string Z)
    (entry : string * Layout) : option PropTypeError :=
  if inObject entry.1 breakpoints then
    InvalidLayout ("layouts." +:+ entry.1)
      <$> validateLayout entry.2 ("layouts." +:+ entry.1)
  else Some KeyNotInBreakpoints.

(** [propTypes.layouts]: [None] when it returns, else the first exception,
    in the order the map lists its keys.  The [layouts] prop of the model
    is always an object, the test of line 78 passes. *)
Definition layoutsPropType (s : Store) (props : Props.t)
  : option PropTypeError :=
  let layouts := layoutMaps s !!! Props.layouts props in
  let breakpoints := numberMaps s !!! Props.breakpoints props in
  head (omap (checkLayoutsKey breakpoints) (map_to_list layouts)).
End PropTypes.

(** ** More vocabulary *)

Definition withCompactType (compactType' : CompactType) (p : Props.t)
  : Props.t :=
  Props.mk (Props.breakpoint p) (Props.breakpoints p) (Props.cols p)
    (Props.layouts p) (Props.width p) (Props.viewportWidth p)
    (Props.breakpointFromViewport p) compactType' (Props.verticalCompact p)
    (Props.margin p) (Props.containerPadding p) (Props.children p).

Definition withVerticalCompact (verticalCompact' : bool) (p : Props.t)
  : Props.t :=
  Props.mk (Props.breakpoint p) (Props.breakpoints p) (Props.cols p)
    (Props.layouts p) (Props.width p) (Props.viewportWidth p)
    (Props.breakpointFromViewport p) (Props.compactType p) verticalCompact'
    (Props.margin p) (Props.containerPadding p) (Props.children p).

(** The callbacks fired between two worlds. *)
Definition firedSince (σ σ' : World) : list Callback :=
  drop (length (fired σ)) (fired σ').

Section Invariant.
Context `{!ResponsiveUtils}.

(** The state's column count is the entry of the state's breakpoint in the
    [cols] object of the props. *)
Definition colsConsistent (props : Props.t) (σ : World) : Prop :=
  getColsFromBreakpoint (State.breakpoint (state σ))
    (numberMaps (store σ) !!! Props.cols props)
  = Some (State.cols (state σ)).

(** The breakpoint [generateInitialState] resolves. *)
Definition initialBreakpoint (s : Store) (props : Props.t) : string :=
  getBreakpointFromWidth (numberMaps s !!! Props.breakpoints props)
    (widthForBreakpoint props).
End Invariant.

(** ** More of the host session *)

(** Props whose [cols] is an object without entries. *)
Definition noColsProps : Props.t :=
  Props.mk None 1%nat 9%nat 1%nat 900 1300 false Vertical true
           (10, 10) None twoChildren.

(** The breakpoints as a second object of equal contents, nothing else
    changed. *)
Definition equalMapProps : Props.t :=
  Props.mk None 3%nat 2%nat 1%nat 1300 1300 false Vertical true
           (10, 10) None twoChildren.

(** A third child, another compaction type and the other width source;
    the compared props are those of [wideProps]. *)
Definition moreChildrenProps : Props.t :=
  Props.mk None 1%nat 2%nat 1%nat 1300 1300 true Horizontal false
           (10, 10) None (twoChildren ++ [mkChild "c" None]).

(** The breakpoint taken from the viewport, 1300 wide. *)
Definition viewportProps : Props.t :=
  Props.mk None 1%nat 2%nat 1%nat 1300 1300 true Vertical true
           (10, 10) None twoChildren.

(** Width 900 and a layouts object without entries. *)
Definition emptyLayoutsProps : Props.t :=
  Props.mk None 1%nat 2%nat 9%nat 900 1300 false Vertical true
           (10, 10) None twoChildren.

(** A store whose layouts object 1 has a key that is no breakpoint. *)
Definition strayKeyStore : Store :=
  mkStore (numberMaps hostStore)
    (<[1%nat := <["huge" := twoItems]> (<["lg" := twoItems]> ∅)]> ∅).

(** A store whose layouts object 1 has the key "constructor", a member of
    every object, and an empty layout under "lg". *)
Definition inheritedKeyStore : Store :=
  mkStore (numberMaps hostStore)
    (<[1%nat := <["constructor" := twoItems]> (<["lg" := []]> ∅)]> ∅).

(** The session with the columns also given for a breakpoint "constructor",
    which is the state's breakpoint. *)
Definition oddStore : Store :=
  mkStore
    (<[2%nat := <["constructor" := 12]> defaultCols]> (numberMaps hostStore))
    (layoutMaps hostStore).

Definition oddWorld : World :=
  mkWorld (State.mk twoItems "constructor" 12 1300) oddStore [].

(** A [validateLayout] that rejects the empty layout. *)
Definition rejectEmpty (layout : Layout) (contextName : string)
  : option string :=
  match layout with
  | [] => Some (contextName +:+ " must not be empty")
  | _ => None
  end.

(** * Properties *)

(** ** BreakpointResolver *)

Global Instance threshold_ge_total : Total threshold_ge.
Proof. intros a b. unfold threshold_ge. lia. Qed.

Global Instance threshold_ge_trans : Transitive threshold_ge.
Proof. intros a b c. unfold threshold_ge. lia. Qed.

Section sorted_search.
Context {A : Type} (R : relation A) `{!Reflexive R}.
Context (P : A → bool).

(** In a sorted list the first hit of a search is above every hit. *)
Lemma find_first_of_sorted (l : list A) (e : A) :
  StronglySorted R l → List.find P l = Some e →
  e ∈ l ∧ P e = true ∧ ∀ e', e' ∈ l → P e' = true → R e e'.
Proof.
  induction 1 as [|a l Hsorted IH Hall]; simpl; [discriminate|].
  destruct (P a) eqn:Ha.
  - intros [= <-]. split; [left|]. split; [exact Ha|].
    intros e' [->|Hin]%elem_of_cons _; [reflexivity|].
    rewrite Forall_forall in Hall. by apply Hall.
  - intros Hfind. destruct (IH Hfind) as (Hin & HP & Hfirst).
    split; [by right|]. split; [exact HP|].
    intros e' [->|Hin']%elem_of_cons HP'; [congruence|]. by apply Hfirst.
Qed.

Lemma find_none_all (l : list A) :
  List.find P l = None → ∀ e, e ∈ l → P e = false.
Proof.
  induction l as [|a l IH]; simpl; intros Hfind e Hin.
  - by apply elem_of_nil in Hin.
  - destruct (P a) eqn:Ha; [discriminate|].
    apply elem_of_cons in Hin as [->|Hin]; [exact Ha|]. by apply IH.
Qed.

(** The last element of a sorted list is below all of them. *)
Lemma last_of_sorted (l : list A) (e : A) :
  StronglySorted R l → last l = Some e → e ∈ l ∧ ∀ e', e' ∈ l → R e' e.
Proof.
  induction 1 as [|a l Hsorted IH Hall]; simpl; [discriminate|].
  destruct l as [|b l].
  - intros [= <-]. split; [left|].
    intros e' Hin. apply list_elem_of_singleton in Hin as ->. reflexivity.
  - intros Hlast. destruct (IH Hlast) as (Hin & Hleast).
    split; [by right|].
    intros e' [->|Hin']%elem_of_cons; [|by apply Hleast].
    rewrite Forall_forall in Hall. by apply Hall.
Qed.
End sorted_search.

Global Instance threshold_ge_refl : Reflexive threshold_ge.
Proof. intros a. unfold threshold_ge. lia. Qed.

Lemma sortBreakpoints_sorted (breakpoints : gmap string Z) :
  StronglySorted threshold_ge (sortBreakpoints breakpoints).
Proof. apply StronglySorted_merge_sort; apply _. Qed.

Lemma elem_of_sortBreakpoints (breakpoints : gmap string Z) name t :
  (name, t) ∈ sortBreakpoints breakpoints ↔ breakpoints !! name = Some t.
Proof.
  unfold sortBreakpoints. rewrite merge_sort_Permutation.
  apply elem_of_map_to_list.
Qed.

Lemma sortBreakpoints_nil (breakpoints : gmap string Z) :
  sortBreakpoints breakpoints = [] → breakpoints = ∅.
Proof.
  intros Hnil. apply map_to_list_empty_iff, Permutation_nil_r.
  rewrite <- Hnil. unfold sortBreakpoints. by rewrite merge_sort_Permutation.
Qed.

(** Some threshold is low enough: the resolved breakpoint has the largest
    such threshold. *)
Lemma resolveBreakpoint_qualifying (breakpoints : gmap string Z) (width : Z) :
  (∃ name t, breakpoints !! name = Some t ∧ t ≤ width) →
  ∃ name t, resolveBreakpoint breakpoints width = Some name ∧
            breakpoints !! name = Some t ∧ t ≤ width ∧
            ∀ name' t', breakpoints !! name' = Some t' → t' ≤ width → t' ≤ t.
Proof.
  intros (n0 & t0 & Hn0 & Ht0). unfold resolveBreakpoint.
  destruct (List.find _ _) as [[name t]|] eqn:Hfind.
  - pose proof (find_first_of_sorted threshold_ge _ _ _
                  (sortBreakpoints_sorted breakpoints) Hfind)
      as (Hin & Hle & Hfirst).
    exists name, t. split; [done|].
    split; [by apply elem_of_sortBreakpoints|].
    apply bool_decide_eq_true in Hle. split; [exact Hle|].
    intros name' t' Hin' Hle'.
    apply (Hfirst (name', t')); [by apply elem_of_sortBreakpoints|].
    by apply bool_decide_eq_true.
  - pose proof (find_none_all _ _ Hfind (n0, t0)) as Hno.
    rewrite bool_decide_eq_false in Hno. simpl in Hno.
    exfalso. apply Hno; [by apply elem_of_sortBreakpoints|exact Ht0].
Qed.

(** No threshold is low enough: the resolved breakpoint has the smallest
    threshold of all. *)
Lemma resolveBreakpoint_catch_all (breakpoints : gmap string Z) (width : Z) :
  (∀ name t, breakpoints !! name = Some t → width < t) →
  breakpoints ≠ ∅ →
  ∃ name t, resolveBreakpoint breakpoints width = Some name ∧
            breakpoints !! name = Some t ∧
            ∀ name' t', breakpoints !! name' = Some t' → t ≤ t'.
Proof.
  intros Hall Hne. unfold resolveBreakpoint.
  destruct (List.find _ _) as [[name t]|] eqn:Hfind.
  - pose proof (find_first_of_sorted threshold_ge _ _ _
                  (sortBreakpoints_sorted breakpoints) Hfind)
      as (Hin & Hle & _).
    apply bool_decide_eq_true in Hle. simpl in Hle.
    apply elem_of_sortBreakpoints, Hall in Hin. lia.
  - destruct (last (sortBreakpoints breakpoints)) as [[name t]|] eqn:Hlast.
    + pose proof (last_of_sorted threshold_ge _ _
                    (sortBreakpoints_sorted breakpoints) Hlast)
        as (Hin & Hleast).
      exists name, t. split; [done|].
      split; [by apply elem_of_sortBreakpoints|].
      intros name' t' Hin'.
      apply (Hleast (name', t')). by apply elem_of_sortBreakpoints.
    + apply last_None in Hlast. by apply sortBreakpoints_nil in Hlast.
Qed.

(** C7. For every breakpoints map and width, [resolveBreakpoint] returns a
    breakpoint whose threshold is at most the width and is the largest
    such threshold; when no threshold is at most the width it returns an
    entry of the smallest threshold; on the default map 1024 resolves to
    "md", 500 to "xs", 10 to "xxs" and 1300 to "lg". *)
Theorem resolveBreakpoint_law :
  (∀ (breakpoints : gmap string Z) (width : Z),
     ((∃ name t, breakpoints !! name = Some t ∧ t ≤ width) →
      ∃ name t, resolveBreakpoint breakpoints width = Some name ∧
                breakpoints !! name = Some t ∧ t ≤ width ∧
                ∀ name' t',
                  breakpoints !! name' = Some t' → t' ≤ width → t' ≤ t)
     ∧
     ((∀ name t, breakpoints !! name = Some t → width < t) →
      breakpoints ≠ ∅ →
      ∃ name t, resolveBreakpoint breakpoints width = Some name ∧
                breakpoints !! name = Some t ∧
                ∀ name' t', breakpoints !! name' = Some t' → t ≤ t'))
  ∧ resolveBreakpoint defaultBreakpoints 1024 = Some "md"
  ∧ resolveBreakpoint defaultBreakpoints 500 = Some "xs"
  ∧ resolveBreakpoint defaultBreakpoints 10 = Some "xxs"
  ∧ resolveBreakpoint defaultBreakpoints 1300 = Some "lg".
Proof.
  split.
  - intros breakpoints width. split.
    + apply resolveBreakpoint_qualifying.
    + apply resolveBreakpoint_catch_all.
  - repeat split; vm_compute; reflexivity.
Qed.

Lemma resolveBreakpoint_law_witness :
  (∃ name t, resolveBreakpoint defaultBreakpoints 1024 = Some name ∧
             defaultBreakpoints !! name = Some t ∧ t ≤ 1024 ∧
             ∀ name' t',
               defaultBreakpoints !! name' = Some t' → t' ≤ 1024 → t' ≤ t)
  ∧
  (∃ name t, resolveBreakpoint (<["wide" := 1200]> (<["narrow" := 600]> ∅)) 320
               = Some name ∧
             (<["wide" := 1200]> (<["narrow" := 600]> ∅) : gmap string Z) !! name
               = Some t ∧
             ∀ name' t',
               (<["wide" := 1200]> (<["narrow" := 600]> ∅) : gmap string Z) !! name'
                 = Some t' → t ≤ t').
Proof.
  split.
  - apply (proj1 (proj1 resolveBreakpoint_law defaultBreakpoints 1024)).
    exists "xxs", 0. split; [reflexivity | lia].
  - apply (proj2 (proj1 resolveBreakpoint_law
                    (<["wide" := 1200]> (<["narrow" := 600]> ∅)) 320)).
    + intros name t Hlookup.
      apply lookup_insert_Some in Hlookup as [[_ <-]|[_ Hlookup]]; [lia|].
      apply lookup_insert_Some in Hlookup as [[_ <-]|[_ Hlookup]]; [lia|].
      by rewrite lookup_empty in Hlookup.
    + intros Hempty.
      apply (f_equal (λ m : gmap string Z, m !! "wide")) in Hempty.
      rewrite lookup_insert_eq, lookup_empty in Hempty. discriminate.
Defined.

(** ** LayoutSynchronizer *)

Section placing.
Context (pull : Layout → LayoutItem → LayoutItem).
Context (pull_static : ∀ obstacles it,
            static (pull obstacles it) = static it).
Context (pull_id : ∀ obstacles it, i (pull obstacles it) = i it).
Context (pull_pulled : ∀ obstacles it,
            pull obstacles (pull obstacles it) = pull obstacles it).

Lemma place_ids (items obstacles : Layout) :
  i <$> place pull obstacles items = i <$> items.
Proof.
  revert obstacles. induction items as [|it rest IH]; intros obstacles;
    simpl; [done|].
  destruct (static it); simpl; rewrite IH; [done|]. by rewrite pull_id.
Qed.

Lemma place_statics (items obstacles : Layout) :
  List.filter static (place pull obstacles items) = List.filter static items.
Proof.
  revert obstacles. induction items as [|it rest IH]; intros obstacles;
    simpl; [done|].
  destruct (static it) eqn:Hstatic; simpl.
  - by rewrite Hstatic, IH.
  - by rewrite pull_static, Hstatic, IH.
Qed.

(** Placing a placed layout against the same obstacles moves nothing. *)
Lemma place_placed (items obstacles : Layout) :
  place pull obstacles (place pull obstacles items)
  = place pull obstacles items.
Proof.
  revert obstacles. induction items as [|it rest IH]; intros obstacles;
    simpl; [done|].
  destruct (static it) eqn:Hstatic; simpl.
  - by rewrite Hstatic, IH.
  - by rewrite pull_static, Hstatic, pull_pulled, IH.
Qed.
End placing.

Lemma bottom_below (obstacles : Layout) o :
  o ∈ obstacles → y o + h o ≤ bottom obstacles.
Proof.
  induction obstacles as [|o' rest IH]; simpl.
  - by intros ?%elem_of_nil.
  - intros [->|Hin]%elem_of_cons; [lia|]. specialize (IH Hin). lia.
Qed.

Lemma rightEdge_beyond (obstacles : Layout) o :
  o ∈ obstacles → x o + w o ≤ rightEdge obstacles.
Proof.
  induction obstacles as [|o' rest IH]; simpl.
  - by intros ?%elem_of_nil.
  - intros [->|Hin]%elem_of_cons; [lia|]. specialize (IH Hin). lia.
Qed.

(** A pulled item overlaps no obstacle. *)
Lemma pullUp_free obstacles it : free obstacles (pullUp obstacles it) = true.
Proof.
  unfold pullUp, minFreeY.
  destruct (List.find _ _) as [y'|] eqn:Hfind; simpl.
  - by apply find_some in Hfind as [_ Hfree].
  - unfold free. apply forallb_forall. intros o Hin%list_elem_of_In.
    apply bottom_below in Hin. unfold overlaps, moveTo. simpl.
    apply negb_true_iff, andb_false_iff. left.
    apply andb_false_iff. right. apply Z.ltb_ge. lia.
Qed.

Lemma pullLeft_free obstacles it :
  free obstacles (pullLeft obstacles it) = true.
Proof.
  unfold pullLeft, minFreeX.
  destruct (List.find _ _) as [x'|] eqn:Hfind; simpl.
  - by apply find_some in Hfind as [_ Hfree].
  - unfold free. apply forallb_forall. intros o Hin%list_elem_of_In.
    apply rightEdge_beyond in Hin. unfold overlaps, moveTo. simpl.
    apply negb_true_iff, andb_false_iff. left.
    apply andb_false_iff. left. apply andb_false_iff. left.
    apply Z.ltb_ge. lia.
Qed.

Lemma pullUp_pulled obstacles it :
  pullUp obstacles (pullUp obstacles it) = pullUp obstacles it.
Proof. destruct it. reflexivity. Qed.

Lemma pullLeft_pulled obstacles it :
  pullLeft obstacles (pullLeft obstacles it) = pullLeft obstacles it.
Proof. destruct it. reflexivity. Qed.

Lemma clamp_clamped columns it :
  clamp columns (clamp columns it) = clamp columns it.
Proof.
  destruct it as [i0 x0 y0 w0 h0 ? ? ? ? ?]. unfold clamp, resize. simpl.
  f_equal; lia.
Qed.

Lemma compact_ids layout compactType columns :
  i <$> compact layout compactType columns = i <$> layout.
Proof.
  destruct compactType; simpl.
  - by apply place_ids.
  - by apply place_ids.
  - rewrite <- list_fmap_compose. apply list_fmap_ext.
    intros _ it _. simpl. by destruct (static it).
Qed.

(** Compaction moves nothing in a compacted layout. *)
Lemma compact_compacted layout compactType columns :
  compact (compact layout compactType columns) compactType columns
  = compact layout compactType columns.
Proof.
  destruct compactType; simpl.
  - rewrite place_statics by done.
    apply place_placed; [done|apply pullUp_pulled].
  - rewrite place_statics by done.
    apply place_placed; [done|apply pullLeft_pulled].
  - rewrite <- list_fmap_compose. apply list_fmap_ext.
    intros _ it _. simpl. destruct (static it) eqn:Hstatic.
    + by rewrite Hstatic.
    + simpl. rewrite Hstatic. apply clamp_clamped.
Qed.

Lemma addMissing_keeps live columns compactType layout id :
  id ∈ i <$> layout → id ∈ i <$> addMissing live columns compactType layout.
Proof.
  revert layout. induction live as [|child rest IH]; intros layout Hin;
    simpl; [done|].
  apply IH. destruct (hasItem layout (key child)); [done|].
  rewrite fmap_app. apply elem_of_app. by left.
Qed.

(** After adding, every live child has an item. *)
Lemma addMissing_complete live columns compactType layout child :
  child ∈ live → key child ∈ i <$> addMissing live columns compactType layout.
Proof.
  revert layout. induction live as [|c rest IH]; intros layout Hin; simpl.
  - by apply elem_of_nil in Hin.
  - apply elem_of_cons in Hin as [->|Hin]; [|by apply IH].
    apply addMissing_keeps. unfold hasItem. case_bool_decide as Hhas; [done|].
    rewrite fmap_app. apply elem_of_app. right.
    unfold autoPlace. destruct (List.find _ _); simpl; apply list_elem_of_singleton;
      reflexivity.
Qed.

(** Nothing is added to a layout that has an item for every live child. *)
Lemma addMissing_nothing live columns compactType layout :
  (∀ child, child ∈ live → key child ∈ i <$> layout) →
  addMissing live columns compactType layout = layout.
Proof.
  induction live as [|c rest IH]; intros Hall; simpl; [done|].
  unfold hasItem. rewrite bool_decide_eq_true_2 by (apply Hall; left).
  apply IH. intros child Hin. apply Hall. by right.
Qed.

Lemma removeStale_live live layout it :
  it ∈ removeStale live layout ↔ it ∈ layout ∧ i it ∈ key <$> live.
Proof.
  unfold removeStale. rewrite (list_elem_of_In (List.filter _ _) it).
  rewrite filter_In, bool_decide_eq_true, <- list_elem_of_In. reflexivity.
Qed.

(** Nothing is removed from a layout whose items all belong to live
    children. *)
Lemma removeStale_nothing live layout :
  (∀ it, it ∈ layout → i it ∈ key <$> live) →
  removeStale live layout = layout.
Proof.
  unfold removeStale. induction layout as [|it rest IH]; intros Hall; simpl;
    [done|].
  rewrite bool_decide_eq_true_2 by (apply Hall; left).
  f_equal. apply IH. intros it' Hin. apply Hall. by right.
Qed.

(** A synchronized layout holds an item for every live child, and items of
    live children only. *)
Lemma synchronize_complete layout live columns compactType child :
  child ∈ live → key child ∈ i <$> synchronize layout live columns compactType.
Proof.
  intros Hin. unfold synchronize. rewrite compact_ids.
  pose proof (addMissing_complete live columns compactType layout child Hin)
    as Hadded.
  apply list_elem_of_fmap in Hadded as (it & Hid & Hit).
  apply list_elem_of_fmap. exists it. split; [done|].
  apply removeStale_live. split; [done|].
  rewrite <- Hid. apply list_elem_of_fmap. by exists child.
Qed.

Lemma synchronize_only_live layout live columns compactType it :
  it ∈ synchronize layout live columns compactType → i it ∈ key <$> live.
Proof.
  intros Hin. assert (i it ∈ i <$> synchronize layout live columns compactType)
    as Hid by (apply list_elem_of_fmap; by exists it).
  unfold synchronize in Hid. rewrite compact_ids in Hid.
  apply list_elem_of_fmap in Hid as (it' & -> & Hit').
  by apply removeStale_live in Hit' as [_ Hlive].
Qed.

(** C8. Synchronizing a synchronized layout against the same live items,
    column count and compaction type returns it unchanged:
    synchronize (synchronize L ids c t) ids c t = synchronize L ids c t,
    for every layout, live items, column count and compaction type. *)
Theorem synchronize_idempotent (L : Layout) (ids : Children) (c : Z)
    (t : CompactType) :
  synchronize (synchronize L ids c t) ids c t = synchronize L ids c t.
Proof.
  unfold synchronize at 1.
  rewrite addMissing_nothing
    by (intros child Hin; by apply synchronize_complete).
  rewrite removeStale_nothing by apply synchronize_only_live.
  unfold synchronize. apply compact_compacted.
Qed.

Example synchronize_adds_and_drops :
  synchronize
    [mkLayoutItem "a" 0 0 2 2 None None None None false;
     mkLayoutItem "gone" 2 0 1 1 None None None None false;
     mkLayoutItem "b" 0 5 1 1 None None None None false]
    [mkChild "a" None; mkChild "b" None; mkChild "new" None] 12 Vertical
  = [mkLayoutItem "a" 0 0 2 2 None None None None false;
     mkLayoutItem "b" 0 2 1 1 None None None None false;
     mkLayoutItem "new" 3 0 1 1 None None None None false].
Proof. vm_compute. reflexivity. Qed.

(** ** ResponsiveController *)

Section Transitions.
Context `{!Utils, !ResponsiveUtils}.

Ltac run :=
  unfold componentWillReceiveProps, onWidthChange, onLayoutChange,
    isEqualNumbers, isEqualLayouts, readNumbers, readLayouts, getState,
    setState, assignLayout, call, orThrow, throw;
  unfold mbind, mret, Action_bind, Action_ret; simpl.

(** What [onWidthChange] does once the column count is found. *)
Lemma onWidthChange_returns props nextProps σ newCols :
  nextCols (store σ) nextProps = Some newCols →
  onWidthChange props nextProps σ =
  Returns tt
    (if breakpointChange props nextProps (State.breakpoint (state σ))
          (nextBreakpoint (store σ) nextProps)
     then
       mkWorld
         (State.mk (nextLayout σ nextProps newCols)
            (nextBreakpoint (store σ) nextProps) newCols
            (State.width (state σ)))
         (mkStore (numberMaps (store σ))
            (<[Props.layouts nextProps := storedLayouts σ nextProps newCols]>
               (layoutMaps (store σ))))
         (fired σ ++
            [OnBreakpointChange (nextBreakpoint (store σ) nextProps) newCols;
             OnLayoutChange (nextLayout σ nextProps newCols)
               (storedLayouts σ nextProps newCols);
             OnWidthChange (Props.width nextProps) (Props.margin nextProps)
               newCols (Props.containerPadding nextProps)])
     else
       mkWorld (state σ) (store σ)
         (fired σ ++
            [OnWidthChange (Props.width nextProps) (Props.margin nextProps)
               newCols (Props.containerPadding nextProps)])).
Proof.
  unfold nextCols, nextBreakpoint. intros Hcols. run. rewrite Hcols. simpl.
  unfold breakpointChange.
  destruct (_ || _ || _) eqn:Hchange; [|done].
  unfold storedLayouts, nextLayout, preservedLayouts, nextBreakpoint.
  destruct (inObject _ _) eqn:Hpresent; simpl.
  - rewrite !lookup_total_insert_eq. rewrite <- !app_assoc. reflexivity.
  - rewrite !lookup_total_insert_eq. rewrite insert_insert_eq.
    rewrite <- !app_assoc. reflexivity.
Qed.

(** The two branches of [componentWillReceiveProps]. *)
Lemma componentWillReceiveProps_branches props nextProps σ :
  componentWillReceiveProps props nextProps σ =
  if widthAffectingChange (store σ) props nextProps then
    onWidthChange props nextProps σ
  else if layoutsChange (store σ) props nextProps then
    Returns tt
      (mkWorld
         (State.mk (derivedLayout σ nextProps) (State.breakpoint (state σ))
            (State.cols (state σ)) (State.width (state σ)))
         (store σ) (fired σ))
  else Returns tt σ.
Proof.
  unfold widthAffectingChange, layoutsChange, derivedLayout.
  unfold componentWillReceiveProps, isEqualNumbers, isEqualLayouts.
  unfold mbind, mret, Action_bind, Action_ret. simpl.
  destruct (_ || _ || _ || _ || _); [done|].
  destruct (negb _); done.
Qed.

(** A change by value of a map is a change of object: two references to
    one object read the same contents. *)
Lemma breakpointChangeByValue_breakpointChange s props nextProps last new :
  breakpointChangeByValue s props nextProps last new = true →
  breakpointChange props nextProps last new = true.
Proof.
  unfold breakpointChangeByValue, breakpointChange.
  rewrite !orb_true_iff, !negb_true_iff, !bool_decide_eq_false,
    !bool_decide_eq_true.
  intros [[Hname|Hmap]|Hmap]; [by left; left| |].
  - left; right. intros Hsame. apply Hmap. by rewrite Hsame.
  - right. intros Hsame. apply Hmap. by rewrite Hsame.
Qed.

(** C1. In a transition where branch (a) triggers and the breakpoint
    change condition holds (as the specification words it, or as the
    code tests it), exactly three callbacks fire, in this order:
    onBreakpointChange with the new breakpoint and columns, then
    onLayoutChange with the new layout and the layouts map, then
    onWidthChange. *)
Theorem callbacks_fire_in_order props nextProps σ newCols :
  widthAffectingChange (store σ) props nextProps = true →
  breakpointChangeByValue (store σ) props nextProps
    (State.breakpoint (state σ)) (nextBreakpoint (store σ) nextProps) = true
  ∨ breakpointChange props nextProps
      (State.breakpoint (state σ)) (nextBreakpoint (store σ) nextProps) = true →
  nextCols (store σ) nextProps = Some newCols →
  ∃ σ', componentWillReceiveProps props nextProps σ = Returns tt σ' ∧
    fired σ' =
      fired σ ++
      [OnBreakpointChange (nextBreakpoint (store σ) nextProps) newCols;
       OnLayoutChange (State.layout (state σ'))
         (layoutMaps (store σ') !!! Props.layouts nextProps);
       OnWidthChange (Props.width nextProps) (Props.margin nextProps)
         newCols (Props.containerPadding nextProps)].
Proof.
  intros Hwidth Hchange Hcols.
  assert (breakpointChange props nextProps (State.breakpoint (state σ))
            (nextBreakpoint (store σ) nextProps) = true) as Hcode.
  { destruct Hchange as [Hvalue|Hcode]; [|exact Hcode].
    by apply breakpointChangeByValue_breakpointChange in Hvalue. }
  rewrite componentWillReceiveProps_branches, Hwidth.
  rewrite (onWidthChange_returns _ _ _ _ Hcols), Hcode.
  eexists. split; [reflexivity|]. simpl.
  by rewrite lookup_total_insert_eq.
Qed.

(** C2, as the code has it. When branch (a) does not trigger and the new
    layouts map differs by value from the previous one, the controller
    derives a layout for the current breakpoint (target and fallback both
    the current breakpoint), installs it as the current layout, leaves
    breakpoint, columns, width and the store unchanged, and fires no
    callback. *)
Theorem layouts_change_installs_layout props nextProps σ :
  widthAffectingChange (store σ) props nextProps = false →
  layoutsChange (store σ) props nextProps = true →
  componentWillReceiveProps props nextProps σ =
  Returns tt
    (mkWorld
       (State.mk
          (findOrGenerateResponsiveLayout
             (layoutMaps (store σ) !!! Props.layouts nextProps)
             (numberMaps (store σ) !!! Props.breakpoints nextProps)
             (State.breakpoint (state σ)) (State.breakpoint (state σ))
             (State.cols (state σ)) (Props.compactType nextProps))
          (State.breakpoint (state σ)) (State.cols (state σ))
          (State.width (state σ)))
       (store σ) (fired σ)).
Proof.
  intros Hwidth Hlayouts.
  by rewrite componentWillReceiveProps_branches, Hwidth, Hlayouts.
Qed.

(** Whenever branch (a) triggers, onWidthChange fires exactly once, last,
    with the new width, margin, new columns and container padding,
    whether or not the breakpoint changed; when the next props are the
    previous ones with another width (the same map objects) and the
    breakpoint stays the same, it is the only callback, and state and
    store are unchanged. *)
Theorem width_change_reported_once props nextProps σ newCols :
  widthAffectingChange (store σ) props nextProps = true →
  nextCols (store σ) nextProps = Some newCols →
  ∃ σ' before,
    componentWillReceiveProps props nextProps σ = Returns tt σ' ∧
    fired σ' =
      fired σ ++ before ++
      [OnWidthChange (Props.width nextProps) (Props.margin nextProps)
         newCols (Props.containerPadding nextProps)] ∧
    Forall (λ callback, isOnWidthChange callback = false) before ∧
    (∀ width',
       nextProps = Props.withWidth width' props →
       nextBreakpoint (store σ) nextProps = State.breakpoint (state σ) →
       before = [] ∧ state σ' = state σ ∧ store σ' = store σ).
Proof.
  intros Hwidth Hcols.
  rewrite componentWillReceiveProps_branches, Hwidth.
  rewrite (onWidthChange_returns _ _ _ _ Hcols).
  destruct (breakpointChange _ _ _ _) eqn:Hchange.
  - eexists _, [_; _]. split; [reflexivity|]. simpl.
    split; [reflexivity|]. split; [by repeat constructor|].
    intros width' -> Hsame. exfalso.
    unfold breakpointChange in Hchange. simpl in Hchange.
    rewrite !orb_true_iff, !bool_decide_eq_true in Hchange.
    destruct Hchange as [[Hname|Hmap]|Hmap]; [|done|done].
    by apply Hname.
  - eexists _, []. split; [reflexivity|]. simpl.
    split; [reflexivity|]. split; [constructor|]. done.
Qed.

(** C9. [handleUserLayoutChange] (the component's own [onLayoutChange])
    fires the host's onLayoutChange once, with the given layout and with
    the current layouts map in which the current breakpoint's entry is
    the given layout; state and store are unchanged. *)
Theorem user_layout_change_wrapped props layout σ :
  onLayoutChange props layout σ =
  Returns tt
    (mkWorld (state σ) (store σ)
       (fired σ ++
          [OnLayoutChange layout
             (<[State.breakpoint (state σ) := layout]>
                (layoutMaps (store σ) !!! Props.layouts props))])).
Proof. reflexivity. Qed.

(** C10. An explicit breakpoint override that is the empty string is
    ignored: [onWidthChange] runs as it does without an override, the
    breakpoint being resolved from the width; an override that is a
    non-empty string is the new breakpoint. *)
Theorem empty_override_ignored breakpoints props nextProps σ :
  (Props.breakpoint nextProps = Some "" →
     newBreakpoint breakpoints nextProps
       = getBreakpointFromWidth breakpoints (widthForBreakpoint nextProps)
     ∧ onWidthChange props nextProps σ
       = onWidthChange props (Props.withBreakpoint None nextProps) σ)
  ∧ (∀ name, name ≠ "" → Props.breakpoint nextProps = Some name →
       newBreakpoint breakpoints nextProps = name).
Proof.
  split.
  - intros Hempty. split.
    + unfold newBreakpoint. by rewrite Hempty.
    + unfold onWidthChange, newBreakpoint, widthForBreakpoint.
      rewrite Hempty. reflexivity.
  - intros name Hname Hoverride. unfold newBreakpoint.
    rewrite Hoverride. by destruct (decide (name = "")).
Qed.

(** A missing column entry: the exception leaves state and store as they
    were and no callback fires. *)
Lemma componentWillReceiveProps_throws props nextProps σ :
  widthAffectingChange (store σ) props nextProps = true →
  nextCols (store σ) nextProps = None →
  componentWillReceiveProps props nextProps σ =
  Throws (ConfigurationError (nextBreakpoint (store σ) nextProps)) σ.
Proof.
  unfold nextCols, nextBreakpoint. intros Hwidth Hcols.
  rewrite componentWillReceiveProps_branches, Hwidth. run.
  by rewrite Hcols.
Qed.

(** Neither branch: nothing happens. *)
Lemma componentWillReceiveProps_idle props nextProps σ :
  widthAffectingChange (store σ) props nextProps = false →
  layoutsChange (store σ) props nextProps = false →
  componentWillReceiveProps props nextProps σ = Returns tt σ.
Proof.
  intros Hwidth Hlayouts.
  by rewrite componentWillReceiveProps_branches, Hwidth, Hlayouts.
Qed.

(** No transition writes the state's width. *)
Lemma state_width_kept props nextProps σ :
  State.width (state (worldOf (componentWillReceiveProps props nextProps σ)))
  = State.width (state σ).
Proof.
  rewrite componentWillReceiveProps_branches.
  destruct (widthAffectingChange _ _ _) eqn:Hwidth.
  - destruct (nextCols (store σ) nextProps) as [newCols|] eqn:Hcols.
    + rewrite (onWidthChange_returns _ _ _ _ Hcols).
      by destruct (breakpointChange _ _ _ _).
    + pose proof (componentWillReceiveProps_throws _ _ _ Hwidth Hcols)
        as Hthrows.
      rewrite componentWillReceiveProps_branches, Hwidth in Hthrows.
      by rewrite Hthrows.
  - by destruct (layoutsChange _ _ _).
Qed.

(** A transition writes to no object but the layouts object of the next
    props. *)
Lemma store_frame props nextProps σ :
  numberMaps (store (worldOf (componentWillReceiveProps props nextProps σ)))
  = numberMaps (store σ)
  ∧ ∀ l, l ≠ Props.layouts nextProps →
      layoutMaps
        (store (worldOf (componentWillReceiveProps props nextProps σ))) !! l
      = layoutMaps (store σ) !! l.
Proof.
  rewrite componentWillReceiveProps_branches.
  destruct (widthAffectingChange _ _ _) eqn:Hwidth.
  - destruct (nextCols (store σ) nextProps) as [newCols|] eqn:Hcols.
    + rewrite (onWidthChange_returns _ _ _ _ Hcols).
      destruct (breakpointChange _ _ _ _); simpl; [|done].
      split; [done|]. intros l Hl. by rewrite lookup_insert_ne.
    + pose proof (componentWillReceiveProps_throws _ _ _ Hwidth Hcols)
        as Hthrows.
      rewrite componentWillReceiveProps_branches, Hwidth in Hthrows.
      by rewrite Hthrows.
  - by destruct (layoutsChange _ _ _).
Qed.

(** In branch (a) the breakpoint change runs exactly when the code's
    test, which compares the two maps by reference, holds; it then
    leaves the synchronized layout in the layouts object of the next
    props. *)
Lemma breakpoint_change_by_reference props nextProps σ newCols :
  widthAffectingChange (store σ) props nextProps = true →
  nextCols (store σ) nextProps = Some newCols →
  (breakpointChange props nextProps (State.breakpoint (state σ))
     (nextBreakpoint (store σ) nextProps) = true
   ∧ layoutMaps
       (store (worldOf (componentWillReceiveProps props nextProps σ)))
       !!! Props.layouts nextProps
     = storedLayouts σ nextProps newCols
   ∧ fired (worldOf (componentWillReceiveProps props nextProps σ))
     = fired σ ++
       [OnBreakpointChange (nextBreakpoint (store σ) nextProps) newCols;
        OnLayoutChange (nextLayout σ nextProps newCols)
          (storedLayouts σ nextProps newCols);
        OnWidthChange (Props.width nextProps) (Props.margin nextProps)
          newCols (Props.containerPadding nextProps)])
  ∨ (breakpointChange props nextProps (State.breakpoint (state σ))
       (nextBreakpoint (store σ) nextProps) = false
     ∧ store (worldOf (componentWillReceiveProps props nextProps σ))
       = store σ
     ∧ state (worldOf (componentWillReceiveProps props nextProps σ))
       = state σ
     ∧ fired (worldOf (componentWillReceiveProps props nextProps σ))
       = fired σ ++
         [OnWidthChange (Props.width nextProps) (Props.margin nextProps)
            newCols (Props.containerPadding nextProps)]).
Proof.
  intros Hwidth Hcols.
  rewrite componentWillReceiveProps_branches, Hwidth.
  rewrite (onWidthChange_returns _ _ _ _ Hcols).
  destruct (breakpointChange _ _ _ _); [left|right]; simpl.
  - by rewrite lookup_total_insert_eq.
  - done.
Qed.
End Transitions.

(** ** The host session *)

Section Session.
#[local] Existing Instance specUtils.
#[local] Existing Instance specResponsiveUtils.

(** From 1300 to 900 the breakpoint goes from "lg" to "sm": the three
    callbacks fire in order. *)
Lemma callbacks_fire_in_order_witness :
  widthAffectingChange (store wideWorld) wideProps
    (Props.withWidth 900 wideProps) = true
  ∧ nextCols (store wideWorld) (Props.withWidth 900 wideProps) = Some 6
  ∧ ∃ σ',
      componentWillReceiveProps wideProps (Props.withWidth 900 wideProps)
        wideWorld = Returns tt σ' ∧
      fired σ' =
        fired wideWorld ++
        [OnBreakpointChange
           (nextBreakpoint (store wideWorld) (Props.withWidth 900 wideProps)) 6;
         OnLayoutChange (State.layout (state σ'))
           (layoutMaps (store σ') !!!
              Props.layouts (Props.withWidth 900 wideProps));
         OnWidthChange (Props.width (Props.withWidth 900 wideProps))
           (Props.margin (Props.withWidth 900 wideProps)) 6
           (Props.containerPadding (Props.withWidth 900 wideProps))].
Proof.
  split; [vm_compute; reflexivity|]. split; [vm_compute; reflexivity|].
  apply (callbacks_fire_in_order wideProps (Props.withWidth 900 wideProps)
           wideWorld 6).
  - vm_compute; reflexivity.
  - left. vm_compute; reflexivity.
  - vm_compute; reflexivity.
Defined.

Example narrowing_fires :
  fired (worldOf (componentWillReceiveProps wideProps
                    (Props.withWidth 900 wideProps) wideWorld))
  = [OnBreakpointChange "sm" 6;
     OnLayoutChange twoItems (<["sm" := twoItems]> (<["lg" := twoItems]> ∅));
     OnWidthChange 900 (10, 10) 6 None].
Proof. vm_compute. reflexivity. Qed.

(** C2 as stated fails: the host passes another layouts object, nothing
    else changes; the new layout is installed and no callback fires. *)
Lemma layouts_change_fires_nothing :
  widthAffectingChange (store wideWorld) wideProps newLayoutsProps = false
  ∧ layoutsChange (store wideWorld) wideProps newLayoutsProps = true
  ∧ componentWillReceiveProps wideProps newLayoutsProps wideWorld
    = Returns tt (mkWorld (State.mk swapped "lg" 12 1300) hostStore [])
  ∧ ¬ ∃ layout layouts,
        fired (worldOf (componentWillReceiveProps wideProps newLayoutsProps
                          wideWorld))
        = fired wideWorld ++ [OnLayoutChange layout layouts].
Proof.
  split; [vm_compute; reflexivity|]. split; [vm_compute; reflexivity|].
  assert (componentWillReceiveProps wideProps newLayoutsProps wideWorld
          = Returns tt (mkWorld (State.mk swapped "lg" 12 1300) hostStore []))
    as Hrun by (vm_compute; reflexivity).
  split; [exact Hrun|].
  rewrite Hrun. simpl. intros (layout & layouts & Hfired). discriminate.
Qed.

Lemma layouts_change_installs_layout_witness :
  widthAffectingChange (store wideWorld) wideProps newLayoutsProps = false
  ∧ layoutsChange (store wideWorld) wideProps newLayoutsProps = true
  ∧ componentWillReceiveProps wideProps newLayoutsProps wideWorld =
    Returns tt
      (mkWorld
         (State.mk
            (findOrGenerateResponsiveLayout
               (layoutMaps (store wideWorld) !!! Props.layouts newLayoutsProps)
               (numberMaps (store wideWorld) !!!
                  Props.breakpoints newLayoutsProps)
               (State.breakpoint (state wideWorld))
               (State.breakpoint (state wideWorld))
               (State.cols (state wideWorld))
               (Props.compactType newLayoutsProps))
            (State.breakpoint (state wideWorld))
            (State.cols (state wideWorld))
            (State.width (state wideWorld)))
         (store wideWorld) (fired wideWorld)).
Proof.
  split; [vm_compute; reflexivity|]. split; [vm_compute; reflexivity|].
  apply (layouts_change_installs_layout wideProps newLayoutsProps wideWorld).
  - vm_compute; reflexivity.
  - vm_compute; reflexivity.
Defined.

(** C3 at the transition from width 1300 to 900: the host's layouts
    object, {lg: twoItems} before, holds an "sm" entry afterwards. *)
Theorem layouts_object_written_in_place :
  layoutMaps (store wideWorld) !!! Props.layouts wideProps
    = <["lg" := twoItems]> ∅
  ∧ layoutMaps
      (store (worldOf (componentWillReceiveProps wideProps
                         (Props.withWidth 900 wideProps) wideWorld)))
      !!! Props.layouts wideProps
    = <["sm" := twoItems]> (<["lg" := twoItems]> ∅)
  ∧ layoutMaps
      (store (worldOf (componentWillReceiveProps wideProps
                         (Props.withWidth 900 wideProps) wideWorld)))
      !!! Props.layouts wideProps
    ≠ layoutMaps (store wideWorld) !!! Props.layouts wideProps.
Proof.
  assert (layoutMaps (store wideWorld) !!! Props.layouts wideProps
          = <["lg" := twoItems]> ∅) as Hbefore by (vm_compute; reflexivity).
  assert (layoutMaps
            (store (worldOf (componentWillReceiveProps wideProps
                               (Props.withWidth 900 wideProps) wideWorld)))
            !!! Props.layouts wideProps
          = <["sm" := twoItems]> (<["lg" := twoItems]> ∅)) as Hafter
    by (vm_compute; reflexivity).
  split; [exact Hbefore|]. split; [exact Hafter|].
  rewrite Hbefore, Hafter. intros Hsame.
  apply (f_equal (λ m : gmap string Layout, m !! "sm")) in Hsame.
  rewrite lookup_insert_eq, lookup_insert_ne, lookup_empty in Hsame by done.
  discriminate.
Qed.

(** C4 at the transition from width 1300 to 900: the new state has the
    new breakpoint, columns and layout, and the width 1300 it had. *)
Theorem state_width_not_updated :
  Props.width (Props.withWidth 900 wideProps) = 900
  ∧ state (worldOf (componentWillReceiveProps wideProps
                      (Props.withWidth 900 wideProps) wideWorld))
    = State.mk twoItems "sm" 6 1300.
Proof. split; vm_compute; reflexivity. Qed.

(** C5 at a transition from width 1300 to 1250 in which the breakpoints
    map is a new object with the same contents: the breakpoint stays
    "lg" and no map changed by value, and the breakpoint change pipeline
    runs. *)
Theorem equal_maps_rerun_pipeline :
  widthAffectingChange (store wideWorld) wideProps freshMapProps = true
  ∧ nextBreakpoint (store wideWorld) freshMapProps
    = State.breakpoint (state wideWorld)
  ∧ breakpointChangeByValue (store wideWorld) wideProps freshMapProps
      (State.breakpoint (state wideWorld))
      (nextBreakpoint (store wideWorld) freshMapProps) = false
  ∧ fired (worldOf (componentWillReceiveProps wideProps freshMapProps
                      wideWorld))
    = [OnBreakpointChange "lg" 12;
       OnLayoutChange twoItems (<["lg" := twoItems]> ∅);
       OnWidthChange 1250 (10, 10) 12 None].
Proof. repeat split; vm_compute; reflexivity. Qed.

(** From 1300 to 1250 with nothing else changed: only onWidthChange. *)
Lemma width_change_reported_once_witness :
  widthAffectingChange (store wideWorld) wideProps
    (Props.withWidth 1250 wideProps) = true
  ∧ nextCols (store wideWorld) (Props.withWidth 1250 wideProps) = Some 12
  ∧ ∃ σ' before,
      componentWillReceiveProps wideProps (Props.withWidth 1250 wideProps)
        wideWorld = Returns tt σ' ∧
      fired σ' =
        fired wideWorld ++ before ++
        [OnWidthChange (Props.width (Props.withWidth 1250 wideProps))
           (Props.margin (Props.withWidth 1250 wideProps)) 12
           (Props.containerPadding (Props.withWidth 1250 wideProps))] ∧
      Forall (λ callback, isOnWidthChange callback = false) before ∧
      (∀ width',
         Props.withWidth 1250 wideProps = Props.withWidth width' wideProps →
         nextBreakpoint (store wideWorld) (Props.withWidth 1250 wideProps)
           = State.breakpoint (state wideWorld) →
         before = [] ∧ state σ' = state wideWorld ∧
         store σ' = store wideWorld).
Proof.
  split; [vm_compute; reflexivity|]. split; [vm_compute; reflexivity|].
  apply (width_change_reported_once wideProps
           (Props.withWidth 1250 wideProps) wideWorld 12).
  - vm_compute; reflexivity.
  - vm_compute; reflexivity.
Defined.

Example same_breakpoint_fires :
  fired (worldOf (componentWillReceiveProps wideProps
                    (Props.withWidth 1250 wideProps) wideWorld))
  = [OnWidthChange 1250 (10, 10) 12 None].
Proof. vm_compute. reflexivity. Qed.

(** At width 900 an empty override resolves to "sm"; the override "md"
    is taken as it is. *)
Lemma empty_override_ignored_witness :
  (Props.breakpoint
     (Props.withBreakpoint (Some "") (Props.withWidth 900 wideProps))
   = Some ""
   ∧ newBreakpoint defaultBreakpoints
       (Props.withBreakpoint (Some "") (Props.withWidth 900 wideProps))
     = getBreakpointFromWidth defaultBreakpoints
         (widthForBreakpoint
            (Props.withBreakpoint (Some "") (Props.withWidth 900 wideProps)))
   ∧ onWidthChange wideProps
       (Props.withBreakpoint (Some "") (Props.withWidth 900 wideProps))
       wideWorld
     = onWidthChange wideProps
         (Props.withBreakpoint None
            (Props.withBreakpoint (Some "") (Props.withWidth 900 wideProps)))
         wideWorld)
  ∧ ("md" ≠ ""
     ∧ Props.breakpoint
         (Props.withBreakpoint (Some "md") (Props.withWidth 900 wideProps))
       = Some "md"
     ∧ newBreakpoint defaultBreakpoints
         (Props.withBreakpoint (Some "md") (Props.withWidth 900 wideProps))
       = "md").
Proof.
  split.
  - split; [reflexivity|].
    apply (proj1 (empty_override_ignored defaultBreakpoints wideProps
             (Props.withBreakpoint (Some "") (Props.withWidth 900 wideProps))
             wideWorld)).
    reflexivity.
  - split; [discriminate|]. split; [reflexivity|].
    apply (proj2 (empty_override_ignored defaultBreakpoints wideProps
             (Props.withBreakpoint (Some "md") (Props.withWidth 900 wideProps))
             wideWorld) "md").
    + discriminate.
    + reflexivity.
Defined.

Example empty_override_resolves :
  newBreakpoint defaultBreakpoints
    (Props.withBreakpoint (Some "") (Props.withWidth 900 wideProps)) = "sm".
Proof. vm_compute. reflexivity. Qed.
End Session.

(** ** Mounting *)

Section Mounting.
Context `{!Utils, !ResponsiveUtils}.

(** When the resolved breakpoint has a column entry, [generateInitialState]
    returns a state whose breakpoint is resolved from the width (an
    explicit [breakpoint] prop plays no part), whose column count is that
    breakpoint's entry and whose width is the props' width; it fires
    onInit once, with the very state it returns, and leaves [this.state]
    and the store as they are. *)
Theorem generateInitialState_establishes props σ colNo :
  getColsFromBreakpoint (initialBreakpoint (store σ) props)
    (numberMaps (store σ) !!! Props.cols props) = Some colNo →
  ∃ initState,
    generateInitialState props σ
    = Returns initState
        (mkWorld (state σ) (store σ) (fired σ ++ [OnInit initState]))
    ∧ (∀ override,
         generateInitialState (Props.withBreakpoint override props) σ
         = generateInitialState props σ)
    ∧ State.breakpoint initState = initialBreakpoint (store σ) props
    ∧ State.cols initState = colNo
    ∧ State.width initState = Props.width props
    ∧ colsConsistent props (mkWorld initState (store σ) (fired σ)).
Proof.
  unfold initialBreakpoint, colsConsistent. intros Hcols.
  eexists (State.mk _ _ _ _). split; [|simpl; split_and!; try reflexivity].
  - unfold generateInitialState, readNumbers, readLayouts, orThrow, call.
    unfold mbind, mret, Action_bind, Action_ret. simpl.
    rewrite Hcols. reflexivity.
  - exact Hcols.
Qed.

(** When the resolved breakpoint has no column entry,
    [generateInitialState] throws before onInit: nothing is fired and
    nothing is written. *)
Theorem generateInitialState_missing_cols props σ :
  getColsFromBreakpoint (initialBreakpoint (store σ) props)
    (numberMaps (store σ) !!! Props.cols props) = None →
  generateInitialState props σ
  = Throws (ConfigurationError (initialBreakpoint (store σ) props)) σ.
Proof.
  unfold initialBreakpoint. intros Hcols.
  unfold generateInitialState, readNumbers, readLayouts, orThrow, throw.
  unfold mbind, mret, Action_bind, Action_ret. simpl. by rewrite Hcols.
Qed.

(** The deprecated [verticalCompact] flag counts at mount only: set to
    false it makes [generateInitialState] run as it does with the flag on
    and no compaction type, whatever the [compactType] prop is; and
    [componentWillReceiveProps] runs the same whatever the flag is in the
    previous and the next props. *)
Theorem verticalCompact_at_mount_only props nextProps σ :
  (Props.verticalCompact props = false →
   generateInitialState props σ
   = generateInitialState
       (withVerticalCompact true (withCompactType NoCompaction props)) σ)
  ∧ (∀ flag flag',
       componentWillReceiveProps (withVerticalCompact flag props)
         (withVerticalCompact flag' nextProps) σ
       = componentWillReceiveProps props nextProps σ).
Proof.
  split.
  - intros Hflag. unfold generateInitialState, widthForBreakpoint.
    simpl. rewrite Hflag. reflexivity.
  - intros flag flag'. reflexivity.
Qed.
End Mounting.

(** ** Reconciling *)

Section Reconciling.
Context `{!Utils, !ResponsiveUtils}.

(** The outcome of a transition, case by case. *)
Lemma transition_cases props nextProps σ :
  (∃ newCols,
     widthAffectingChange (store σ) props nextProps = true ∧
     nextCols (store σ) nextProps = Some newCols ∧
     breakpointChange props nextProps (State.breakpoint (state σ))
       (nextBreakpoint (store σ) nextProps) = true ∧
     componentWillReceiveProps props nextProps σ =
     Returns tt
       (mkWorld
          (State.mk (nextLayout σ nextProps newCols)
             (nextBreakpoint (store σ) nextProps) newCols
             (State.width (state σ)))
          (mkStore (numberMaps (store σ))
             (<[Props.layouts nextProps := storedLayouts σ nextProps newCols]>
                (layoutMaps (store σ))))
          (fired σ ++
             [OnBreakpointChange (nextBreakpoint (store σ) nextProps) newCols;
              OnLayoutChange (nextLayout σ nextProps newCols)
                (storedLayouts σ nextProps newCols);
              OnWidthChange (Props.width nextProps) (Props.margin nextProps)
                newCols (Props.containerPadding nextProps)])))
  ∨ (∃ newCols,
       widthAffectingChange (store σ) props nextProps = true ∧
       nextCols (store σ) nextProps = Some newCols ∧
       breakpointChange props nextProps (State.breakpoint (state σ))
         (nextBreakpoint (store σ) nextProps) = false ∧
       componentWillReceiveProps props nextProps σ =
       Returns tt
         (mkWorld (state σ) (store σ)
            (fired σ ++
               [OnWidthChange (Props.width nextProps) (Props.margin nextProps)
                  newCols (Props.containerPadding nextProps)])))
  ∨ (widthAffectingChange (store σ) props nextProps = true ∧
     nextCols (store σ) nextProps = None ∧
     componentWillReceiveProps props nextProps σ =
     Throws (ConfigurationError (nextBreakpoint (store σ) nextProps)) σ)
  ∨ (widthAffectingChange (store σ) props nextProps = false ∧
     layoutsChange (store σ) props nextProps = true ∧
     componentWillReceiveProps props nextProps σ =
     Returns tt
       (mkWorld
          (State.mk (derivedLayout σ nextProps) (State.breakpoint (state σ))
             (State.cols (state σ)) (State.width (state σ)))
          (store σ) (fired σ)))
  ∨ (widthAffectingChange (store σ) props nextProps = false ∧
     layoutsChange (store σ) props nextProps = false ∧
     componentWillReceiveProps props nextProps σ = Returns tt σ).
Proof.
  rewrite componentWillReceiveProps_branches.
  destruct (widthAffectingChange _ _ _) eqn:Hwidth.
  - destruct (nextCols (store σ) nextProps) as [newCols|] eqn:Hcols.
    + rewrite (onWidthChange_returns _ _ _ _ Hcols).
      destruct (breakpointChange _ _ _ _) eqn:Hchange.
      * left. by exists newCols.
      * right; left. by exists newCols.
    + right; right; left. split; [done|]. split; [done|].
      pose proof (componentWillReceiveProps_throws _ _ _ Hwidth Hcols)
        as Hthrows.
      by rewrite componentWillReceiveProps_branches, Hwidth in Hthrows.
  - destruct (layoutsChange _ _ _) eqn:Hlayouts.
    + right; right; right; left. done.
    + right; right; right; right. done.
Qed.

Lemma firedSince_app σ σ' new :
  fired σ' = fired σ ++ new → firedSince σ σ' = new.
Proof. unfold firedSince. intros ->. apply drop_app_length. Qed.

Lemma firedSince_same σ σ' : fired σ' = fired σ → firedSince σ σ' = [].
Proof. unfold firedSince. intros ->. apply drop_all. Qed.

Ltac transition_cases props nextProps σ :=
  destruct (transition_cases props nextProps σ)
    as [(newCols & Hwidth & Hcols & Hchange & Hrun)
       |[(newCols & Hwidth & Hcols & Hchange & Hrun)
        |[(Hwidth & Hcols & Hrun)
         |[(Hwidth & Hlayouts & Hrun)
          |(Hwidth & Hlayouts & Hrun)]]]];
  rewrite Hrun; simpl.

(** Whatever the props, a transition fires nothing, or onWidthChange
    alone, or onBreakpointChange, onLayoutChange and onWidthChange in this
    order: onInit never fires again, and neither of the first two fires
    without the other and onWidthChange after them. *)
Theorem transition_callbacks_shapes props nextProps σ :
  let σ' := worldOf (componentWillReceiveProps props nextProps σ) in
  firedSince σ σ' = []
  ∨ (∃ width margin cols padding,
       firedSince σ σ' = [OnWidthChange width margin cols padding])
  ∨ (∃ breakpoint layout layouts width margin cols padding,
       firedSince σ σ' =
         [OnBreakpointChange breakpoint cols; OnLayoutChange layout layouts;
          OnWidthChange width margin cols padding]).
Proof.
  transition_cases props nextProps σ.
  - right; right. do 7 eexists. by apply firedSince_app.
  - right; left. do 4 eexists. by apply firedSince_app.
  - left. by apply firedSince_same.
  - left. by apply firedSince_same.
  - left. by apply firedSince_same.
Qed.

(** A missing column entry of the new breakpoint aborts the transition
    before anything happens: the exception names the breakpoint, and
    state, store and fired callbacks are those before the call. *)
Theorem missing_cols_aborts_transition props nextProps σ :
  widthAffectingChange (store σ) props nextProps = true →
  nextCols (store σ) nextProps = None →
  ∃ σ',
    componentWillReceiveProps props nextProps σ
    = Throws (ConfigurationError (nextBreakpoint (store σ) nextProps)) σ'
    ∧ state σ' = state σ ∧ store σ' = store σ ∧ fired σ' = fired σ.
Proof.
  intros Hwidth Hcols. exists σ.
  by rewrite (componentWillReceiveProps_throws _ _ _ Hwidth Hcols).
Qed.

(** Only [width], [viewportWidth], [breakpoint] and the three maps are
    compared: next props that agree with the previous ones on these (the
    maps being the same objects) start no transition, whatever their
    children, compaction type, margin, padding or width source, and
    whatever the objects hold by now. *)
Theorem only_compared_props_trigger props nextProps σ :
  Props.width nextProps = Props.width props →
  Props.viewportWidth nextProps = Props.viewportWidth props →
  Props.breakpoint nextProps = Props.breakpoint props →
  Props.breakpoints nextProps = Props.breakpoints props →
  Props.cols nextProps = Props.cols props →
  Props.layouts nextProps = Props.layouts props →
  componentWillReceiveProps props nextProps σ = Returns tt σ.
Proof.
  intros Hw Hv Hb Hbs Hc Hl. rewrite componentWillReceiveProps_branches.
  unfold widthAffectingChange, layoutsChange. rewrite Hw, Hv, Hb, Hbs, Hc, Hl.
  rewrite !(bool_decide_eq_false_2 (_ ≠ _)) by (intros Hne; by apply Hne).
  by rewrite !bool_decide_eq_true_2.
Qed.

(** The column count follows the breakpoint: if the state's column count
    is the entry of the state's breakpoint in the previous props' [cols],
    then after a transition that returns it is the entry of the state's
    breakpoint in the next props' [cols]. *)
Theorem cols_follow_breakpoint props nextProps σ σ' :
  colsConsistent props σ →
  componentWillReceiveProps props nextProps σ = Returns tt σ' →
  colsConsistent nextProps σ'.
Proof.
  unfold colsConsistent. intros Hinv.
  transition_cases props nextProps σ; intros [= <-]; simpl.
  - exact Hcols.
  - unfold breakpointChange in Hchange.
    rewrite !orb_false_iff, !bool_decide_eq_false in Hchange.
    destruct Hchange as [[_ _] Hsame].
    apply dec_stable in Hsame. by rewrite <- Hsame.
  - unfold widthAffectingChange in Hwidth.
    rewrite !orb_false_iff, !negb_false_iff, !bool_decide_eq_true in Hwidth.
    destruct Hwidth as [_ Hsame]. by rewrite Hsame.
  - unfold widthAffectingChange in Hwidth.
    rewrite !orb_false_iff, !negb_false_iff, !bool_decide_eq_true in Hwidth.
    destruct Hwidth as [_ Hsame]. by rewrite Hsame.
Qed.

(** After a width-affecting transition that returns, the state's
    breakpoint is the breakpoint of the next props: the non-empty override
    if there is one, else the one resolved from the width. *)
Theorem breakpoint_follows_props props nextProps σ σ' :
  widthAffectingChange (store σ) props nextProps = true →
  componentWillReceiveProps props nextProps σ = Returns tt σ' →
  State.breakpoint (state σ') = nextBreakpoint (store σ) nextProps.
Proof.
  intros Hgate.
  transition_cases props nextProps σ; intros [= <-]; simpl;
    try congruence.
  unfold breakpointChange in Hchange.
  rewrite !orb_false_iff, !bool_decide_eq_false in Hchange.
  destruct Hchange as [[Hsame _] _]. by apply dec_stable in Hsame.
Qed.

Lemma inObject_true {A} (name : string) (object : gmap string A) :
  inObject name object = true
  ↔ is_Some (object !! name) ∨ name ∈ objectPrototypeNames.
Proof.
  unfold inObject. by rewrite orb_true_iff, !bool_decide_eq_true.
Qed.

(** What a breakpoint change leaves in the layouts object of the next
    props, the new breakpoint not being "__proto__" (assigning to that name
    sets an object's prototype, not an entry): under the new breakpoint the
    state's new layout; under the previous breakpoint, when it is another
    one, the entry it had, or if it had none a clone of the previous
    state's layout, unless the name is a member every object inherits
    (line 239 then finds it [in] the object and nothing is stored); every
    other entry as it was. *)
Theorem current_layout_preserved props nextProps σ newCols :
  widthAffectingChange (store σ) props nextProps = true →
  nextCols (store σ) nextProps = Some newCols →
  breakpointChange props nextProps (State.breakpoint (state σ))
    (nextBreakpoint (store σ) nextProps) = true →
  nextBreakpoint (store σ) nextProps ≠ "__proto__" →
  let σ' := worldOf (componentWillReceiveProps props nextProps σ) in
  let before := layoutMaps (store σ) !!! Props.layouts nextProps in
  let after := layoutMaps (store σ') !!! Props.layouts nextProps in
  after !! nextBreakpoint (store σ) nextProps = Some (State.layout (state σ'))
  ∧ (State.breakpoint (state σ) ≠ nextBreakpoint (store σ) nextProps →
     after !! State.breakpoint (state σ)
     = match before !! State.breakpoint (state σ) with
       | Some stored => Some stored
       | None =>
           if bool_decide (State.breakpoint (state σ) ∈ objectPrototypeNames)
           then None
           else Some (cloneLayout (State.layout (state σ)))
       end)
  ∧ (∀ name, name ≠ nextBreakpoint (store σ) nextProps →
             name ≠ State.breakpoint (state σ) →
             after !! name = before !! name).
Proof.
  intros Hgate Hfound Hruns _.
  rewrite componentWillReceiveProps_branches, Hgate.
  rewrite (onWidthChange_returns _ _ _ _ Hfound), Hruns. simpl.
  rewrite lookup_total_insert_eq. unfold storedLayouts, preservedLayouts.
  split; [by rewrite lookup_insert_eq|]. split.
  - intros Hne. rewrite lookup_insert_ne by done.
    destruct (inObject _ _) eqn:Hpresent.
    + apply inObject_true in Hpresent as [[stored Hstored]|Hinherited].
      * by rewrite Hstored.
      * destruct (_ !! State.breakpoint (state σ)); [done|].
        by rewrite bool_decide_eq_true_2.
    + apply not_true_iff_false in Hpresent.
      rewrite inObject_true in Hpresent.
      rewrite lookup_insert_eq.
      destruct (_ !! State.breakpoint (state σ)) eqn:Hstored.
      * exfalso. apply Hpresent. left. by eexists.
      * rewrite bool_decide_eq_false_2; [done|]. intros Hin.
        apply Hpresent. by right.
  - intros name Hnew Hlast. rewrite lookup_insert_ne by done.
    destruct (inObject _ _); [done|]. by rewrite lookup_insert_ne.
Qed.

(** Every onLayoutChange a transition fires carries the state's new layout
    and a map that is, by contents, the layouts object of the next props
    after the transition, in which the state's new breakpoint maps to that
    layout. *)
Theorem layout_callback_agrees props nextProps σ layout layouts :
  let σ' := worldOf (componentWillReceiveProps props nextProps σ) in
  OnLayoutChange layout layouts ∈ firedSince σ σ' →
  State.layout (state σ') = layout
  ∧ layoutMaps (store σ') !!! Props.layouts nextProps = layouts
  ∧ layouts !! State.breakpoint (state σ') = Some layout.
Proof.
  transition_cases props nextProps σ.
  - erewrite (firedSince_app σ) by (simpl; reflexivity).
    rewrite !elem_of_cons, elem_of_nil.
    intros [Hin|[Hin|[Hin|[]]]]; try discriminate.
    injection Hin as -> ->. rewrite lookup_total_insert_eq.
    split; [done|]. split; [done|].
    unfold storedLayouts. by rewrite lookup_insert_eq.
  - erewrite (firedSince_app σ) by (simpl; reflexivity).
    rewrite !elem_of_cons, elem_of_nil. intros [Hin|[]]. discriminate.
  - rewrite (firedSince_same σ σ) by reflexivity. by intros ?%elem_of_nil.
  - erewrite (firedSince_same σ) by (simpl; reflexivity). by intros ?%elem_of_nil.
  - rewrite (firedSince_same σ σ) by reflexivity. by intros ?%elem_of_nil.
Qed.

Lemma onWidthChange_throws props nextProps σ :
  nextCols (store σ) nextProps = None →
  onWidthChange props nextProps σ =
  Throws (ConfigurationError (nextBreakpoint (store σ) nextProps)) σ.
Proof.
  unfold nextCols, nextBreakpoint. intros Hcols.
  unfold onWidthChange, readNumbers, getState, orThrow, throw.
  unfold mbind, mret, Action_bind, Action_ret. simpl. by rewrite Hcols.
Qed.

(** A transition does not read the callbacks fired so far. *)
Lemma transition_ignores_log props nextProps σ log :
  let logged := mkWorld (state σ) (store σ) log in
  let σ' := worldOf (componentWillReceiveProps props nextProps σ) in
  let logged' := worldOf (componentWillReceiveProps props nextProps logged) in
  state logged' = state σ' ∧ store logged' = store σ'
  ∧ firedSince logged logged' = firedSince σ σ'.
Proof.
  simpl. rewrite !componentWillReceiveProps_branches. simpl.
  destruct (widthAffectingChange _ _ _).
  - destruct (nextCols (store σ) nextProps) as [newCols|] eqn:Hcols.
    + rewrite (onWidthChange_returns props nextProps σ _ Hcols).
      rewrite (onWidthChange_returns props nextProps
                 (mkWorld (state σ) (store σ) log) _ Hcols). simpl.
      destruct (breakpointChange _ _ _ _); simpl; split_and!; try done;
        by erewrite !firedSince_app by (simpl; reflexivity).
    + rewrite (onWidthChange_throws props nextProps σ Hcols).
      rewrite (onWidthChange_throws props nextProps
                 (mkWorld (state σ) (store σ) log) Hcols). simpl.
      split_and!; try done.
      by rewrite !firedSince_same by reflexivity.
  - destruct (layoutsChange _ _ _); simpl; split_and!; try done;
      by erewrite !firedSince_same by (simpl; reflexivity).
Qed.

(** A layout the renderer reports is handed to the host and kept nowhere:
    the next transition ends in the same state and store, and fires the
    same callbacks, as it does without the report. *)
Theorem user_layout_not_retained props nextProps layout σ :
  let told := worldOf (onLayoutChange props layout σ) in
  let σ' := worldOf (componentWillReceiveProps props nextProps σ) in
  let told' := worldOf (componentWillReceiveProps props nextProps told) in
  state told' = state σ' ∧ store told' = store σ'
  ∧ firedSince told told' = firedSince σ σ'.
Proof.
  apply (transition_ignores_log props nextProps σ
           (fired σ ++
              [OnLayoutChange layout
                 (<[State.breakpoint (state σ) := layout]>
                    (layoutMaps (store σ) !!! Props.layouts props))])).
Qed.

(** When the breakpoint is taken from the viewport, or pinned by a
    non-empty override, and the state has the breakpoint of the current
    props, a change of the width alone fires onWidthChange with the new
    width and changes neither state nor store. *)
Theorem width_alone_keeps_pinned_breakpoint props width' σ newCols :
  Props.breakpointFromViewport props = true
  ∨ (∃ name, name ≠ "" ∧ Props.breakpoint props = Some name) →
  State.breakpoint (state σ) = nextBreakpoint (store σ) props →
  width' ≠ Props.width props →
  nextCols (store σ) (Props.withWidth width' props) = Some newCols →
  componentWillReceiveProps props (Props.withWidth width' props) σ =
  Returns tt
    (mkWorld (state σ) (store σ)
       (fired σ ++
          [OnWidthChange width' (Props.margin props) newCols
             (Props.containerPadding props)])).
Proof.
  intros Hpinned Hcurrent Hwidth Hcols.
  assert (nextBreakpoint (store σ) (Props.withWidth width' props)
          = nextBreakpoint (store σ) props) as Hsame.
  { unfold nextBreakpoint, newBreakpoint, widthForBreakpoint. simpl.
    destruct Hpinned as [->|(name & Hname & ->)]; [done|].
    by destruct (decide (name = "")). }
  rewrite componentWillReceiveProps_branches.
  unfold widthAffectingChange at 1. simpl.
  rewrite (bool_decide_eq_true_2 (width' ≠ _)) by done. simpl.
  rewrite (onWidthChange_returns _ _ _ _ Hcols).
  unfold breakpointChange. simpl. rewrite Hsame, <- Hcurrent.
  by rewrite !(bool_decide_eq_false_2 (_ ≠ _)) by (intros Hne; by apply Hne).
Qed.

(** After a width-affecting transition from a state whose column count is
    consistent, the renderer is given the next props' width and children,
    the state's layout, and the column count that was reported to
    onWidthChange. *)
Theorem render_after_width_change props nextProps σ σ' reported :
  colsConsistent props σ →
  widthAffectingChange (store σ) props nextProps = true →
  nextCols (store σ) nextProps = Some reported →
  componentWillReceiveProps props nextProps σ = Returns tt σ' →
  ∃ rendered,
    render nextProps σ' = Returns rendered σ'
    ∧ Rendered.width rendered = Props.width nextProps
    ∧ Rendered.children rendered = Props.children nextProps
    ∧ Rendered.layout rendered = State.layout (state σ')
    ∧ Rendered.cols rendered = reported
    ∧ last (fired σ')
      = Some (OnWidthChange (Props.width nextProps) (Props.margin nextProps)
                (Rendered.cols rendered) (Props.containerPadding nextProps)).
Proof.
  unfold colsConsistent. intros Hinv Hgate Hfound.
  transition_cases props nextProps σ; intros [= <-]; try congruence;
    (eexists; split; [reflexivity|]; simpl; split_and!; try done).
  - congruence.
  - by rewrite last_app.
  - unfold breakpointChange in Hchange.
    rewrite !orb_false_iff, !bool_decide_eq_false in Hchange.
    destruct Hchange as [[Hname _] Hsame].
    apply dec_stable in Hname, Hsame. unfold nextCols in Hfound.
    rewrite <- Hname, <- Hsame in Hfound. congruence.
  - rewrite last_snoc. do 2 f_equal.
    unfold breakpointChange in Hchange.
    rewrite !orb_false_iff, !bool_decide_eq_false in Hchange.
    destruct Hchange as [[Hname _] Hsame].
    apply dec_stable in Hname, Hsame. unfold nextCols in Hcols.
    rewrite <- Hname, <- Hsame in Hcols. congruence.
Qed.
End Reconciling.

(** ** The [layouts] prop type *)

Section Validation.
Context (validateLayout : Layout → string → option string).

Lemma head_omap_None {A B} (f : A → option B) (l : list A) :
  head (omap f l) = None ↔ ∀ a, a ∈ l → f a = None.
Proof.
  induction l as [|a l IH]; simpl.
  - split; [intros _ a' Hin; by apply elem_of_nil in Hin|done].
  - destruct (f a) as [b|] eqn:Hfa; simpl.
    + split; [done|]. intros Hall.
      specialize (Hall a (list_elem_of_here _ _)). congruence.
    + rewrite IH. split.
      * intros Hall a' [->|Hin]%elem_of_cons; [done|by apply Hall].
      * intros Hall a' Hin. apply Hall. by right.
Qed.

(** The validator returns exactly when every key of [layouts] is [in]
    [breakpoints] (a key of it, or a member every object inherits) and
    [validateLayout] accepts every layout under the name "layouts."
    followed by its key; in particular it accepts the empty [layouts]. *)
Theorem layoutsPropType_accepts s props :
  layoutsPropType validateLayout s props = None
  ↔ ∀ name layout,
      (layoutMaps s !!! Props.layouts props) !! name = Some layout →
      (is_Some ((numberMaps s !!! Props.breakpoints props) !! name)
       ∨ name ∈ objectPrototypeNames)
      ∧ validateLayout layout ("layouts." +:+ name) = None.
Proof.
  unfold layoutsPropType. rewrite head_omap_None. split.
  - intros Hall name layout Hin.
    specialize (Hall (name, layout)).
    rewrite elem_of_map_to_list in Hall. specialize (Hall Hin).
    unfold checkLayoutsKey in Hall. simpl in Hall.
    destruct (inObject _ _) eqn:Hkey; [|done].
    apply inObject_true in Hkey. split; [done|].
    by destruct (validateLayout layout _).
  - intros Hall [name layout] Hin%elem_of_map_to_list.
    destruct (Hall name layout Hin) as [Hkey Hvalid].
    unfold checkLayoutsKey. simpl.
    apply inObject_true in Hkey. by rewrite Hkey, Hvalid.
Qed.

(** When the validator throws, either some key of [layouts] is not [in]
    [breakpoints] (neither a key of it nor a member every object
    inherits), or [validateLayout] rejected the layout of a key that is;
    it throws nothing else. *)
Theorem layoutsPropType_rejects s props error :
  layoutsPropType validateLayout s props = Some error →
  (error = KeyNotInBreakpoints
   ∧ ∃ name, is_Some ((layoutMaps s !!! Props.layouts props) !! name)
             ∧ (numberMaps s !!! Props.breakpoints props) !! name = None
             ∧ name ∉ objectPrototypeNames)
  ∨ (∃ name layout message,
       error = InvalidLayout ("layouts." +:+ name) message
       ∧ (layoutMaps s !!! Props.layouts props) !! name = Some layout
       ∧ (is_Some ((numberMaps s !!! Props.breakpoints props) !! name)
          ∨ name ∈ objectPrototypeNames)
       ∧ validateLayout layout ("layouts." +:+ name) = Some message).
Proof.
  unfold layoutsPropType. intros Hhead.
  apply head_Some_elem_of, list_elem_of_omap in Hhead
    as ([name layout] & Hin%elem_of_map_to_list & Hcheck).
  unfold checkLayoutsKey in Hcheck. simpl in Hcheck.
  destruct (inObject _ _) eqn:Hkey.
  - right. apply inObject_true in Hkey.
    destruct (validateLayout layout _) as [message|] eqn:Hvalid; [|done].
    injection Hcheck as <-. by exists name, layout, message.
  - left. apply not_true_iff_false in Hkey. rewrite inObject_true in Hkey.
    injection Hcheck as <-. split; [done|]. exists name.
    split; [by exists layout|]. split.
    + apply eq_None_not_Some. intros Hsome. apply Hkey. by left.
    + intros Hin'. apply Hkey. by right.
Qed.
End Validation.

(** ** More of the host session *)

Section MoreSession.
#[local] Existing Instance specUtils.
#[local] Existing Instance specResponsiveUtils.

Lemma generateInitialState_establishes_witness :
  ∃ initState,
    generateInitialState wideProps wideWorld
    = Returns initState
        (mkWorld (state wideWorld) (store wideWorld)
           (fired wideWorld ++ [OnInit initState]))
    ∧ (∀ override,
         generateInitialState (Props.withBreakpoint override wideProps)
           wideWorld
         = generateInitialState wideProps wideWorld)
    ∧ State.breakpoint initState = initialBreakpoint (store wideWorld) wideProps
    ∧ State.cols initState = 12
    ∧ State.width initState = Props.width wideProps
    ∧ colsConsistent wideProps
        (mkWorld initState (store wideWorld) (fired wideWorld)).
Proof.
  apply (generateInitialState_establishes wideProps wideWorld 12).
  vm_compute; reflexivity.
Defined.

Example mounting_wide :
  generateInitialState wideProps wideWorld
  = Returns (State.mk twoItems "lg" 12 1300)
      (mkWorld (state wideWorld) hostStore
         [OnInit (State.mk twoItems "lg" 12 1300)]).
Proof. vm_compute. reflexivity. Qed.

Lemma generateInitialState_missing_cols_witness :
  generateInitialState noColsProps wideWorld
  = Throws (ConfigurationError (initialBreakpoint (store wideWorld) noColsProps))
      wideWorld.
Proof.
  apply (generateInitialState_missing_cols noColsProps wideWorld).
  vm_compute; reflexivity.
Defined.

Lemma verticalCompact_at_mount_only_witness :
  Props.compactType moreChildrenProps = Horizontal
  ∧ generateInitialState moreChildrenProps wideWorld
    = generateInitialState
        (withVerticalCompact true
           (withCompactType NoCompaction moreChildrenProps)) wideWorld.
Proof.
  split; [reflexivity|].
  apply (proj1 (verticalCompact_at_mount_only moreChildrenProps wideProps
                  wideWorld)).
  reflexivity.
Defined.

Lemma missing_cols_aborts_transition_witness :
  ∃ σ',
    componentWillReceiveProps wideProps noColsProps wideWorld
    = Throws (ConfigurationError (nextBreakpoint (store wideWorld) noColsProps))
        σ'
    ∧ state σ' = state wideWorld ∧ store σ' = store wideWorld
    ∧ fired σ' = fired wideWorld.
Proof.
  apply (missing_cols_aborts_transition wideProps noColsProps wideWorld).
  - vm_compute; reflexivity.
  - vm_compute; reflexivity.
Defined.

Lemma only_compared_props_trigger_witness :
  Props.children moreChildrenProps ≠ Props.children wideProps
  ∧ componentWillReceiveProps wideProps moreChildrenProps wideWorld
    = Returns tt wideWorld.
Proof.
  split; [discriminate|].
  apply (only_compared_props_trigger wideProps moreChildrenProps wideWorld);
    reflexivity.
Defined.

Lemma componentWillReceiveProps_idle_witness :
  Props.breakpoints equalMapProps ≠ Props.breakpoints wideProps
  ∧ componentWillReceiveProps wideProps equalMapProps wideWorld
    = Returns tt wideWorld.
Proof.
  split; [discriminate|].
  apply (componentWillReceiveProps_idle wideProps equalMapProps wideWorld).
  - vm_compute; reflexivity.
  - vm_compute; reflexivity.
Defined.

Lemma cols_follow_breakpoint_witness :
  colsConsistent (Props.withWidth 900 wideProps)
    (worldOf (componentWillReceiveProps wideProps
                (Props.withWidth 900 wideProps) wideWorld)).
Proof.
  apply (cols_follow_breakpoint wideProps (Props.withWidth 900 wideProps)
           wideWorld).
  - vm_compute; reflexivity.
  - vm_compute; reflexivity.
Defined.

Lemma breakpoint_follows_props_witness :
  State.breakpoint
    (state (worldOf (componentWillReceiveProps wideProps
                       (Props.withBreakpoint (Some "md") wideProps) wideWorld)))
  = nextBreakpoint (store wideWorld)
      (Props.withBreakpoint (Some "md") wideProps).
Proof.
  apply (breakpoint_follows_props wideProps
           (Props.withBreakpoint (Some "md") wideProps) wideWorld).
  - vm_compute; reflexivity.
  - vm_compute; reflexivity.
Defined.

Example override_is_adopted :
  state (worldOf (componentWillReceiveProps wideProps
                    (Props.withBreakpoint (Some "md") wideProps) wideWorld))
  = State.mk twoItems "md" 10 1300.
Proof. vm_compute. reflexivity. Qed.

Lemma current_layout_preserved_witness :
  let σ' := worldOf (componentWillReceiveProps wideProps emptyLayoutsProps
                       wideWorld) in
  let before := layoutMaps (store wideWorld) !!! Props.layouts emptyLayoutsProps in
  let after := layoutMaps (store σ') !!! Props.layouts emptyLayoutsProps in
  after !! nextBreakpoint (store wideWorld) emptyLayoutsProps
    = Some (State.layout (state σ'))
  ∧ (State.breakpoint (state wideWorld)
       ≠ nextBreakpoint (store wideWorld) emptyLayoutsProps →
     after !! State.breakpoint (state wideWorld)
     = match before !! State.breakpoint (state wideWorld) with
       | Some stored => Some stored
       | None =>
           if bool_decide
                (State.breakpoint (state wideWorld) ∈ objectPrototypeNames)
           then None
           else Some (cloneLayout (State.layout (state wideWorld)))
       end)
  ∧ (∀ name, name ≠ nextBreakpoint (store wideWorld) emptyLayoutsProps →
             name ≠ State.breakpoint (state wideWorld) →
             after !! name = before !! name).
Proof.
  apply (current_layout_preserved wideProps emptyLayoutsProps wideWorld 6).
  - vm_compute; reflexivity.
  - vm_compute; reflexivity.
  - vm_compute; reflexivity.
  - vm_compute. discriminate.
Defined.

Example empty_layouts_filled :
  layoutMaps
    (store (worldOf (componentWillReceiveProps wideProps emptyLayoutsProps
                       wideWorld))) !!! Props.layouts emptyLayoutsProps
  = <["sm" := twoItems]> (<["lg" := twoItems]> ∅).
Proof. vm_compute. reflexivity. Qed.

(** A state whose breakpoint is named "constructor": the name is [in] the
    empty layouts object, the layout on screen is not stored. *)
Example inherited_name_not_preserved :
  layoutMaps
    (store (worldOf (componentWillReceiveProps wideProps emptyLayoutsProps
                       oddWorld))) !!! Props.layouts emptyLayoutsProps
  = <["sm" := [mkLayoutItem "a" 0 0 1 1 None None None None false;
               mkLayoutItem "b" 1 0 1 1 None None None None false]]> ∅.
Proof. vm_compute. reflexivity. Qed.

Lemma layout_callback_agrees_witness :
  let σ' := worldOf (componentWillReceiveProps wideProps
                       (Props.withWidth 900 wideProps) wideWorld) in
  State.layout (state σ') = twoItems
  ∧ layoutMaps (store σ') !!! Props.layouts (Props.withWidth 900 wideProps)
    = <["sm" := twoItems]> (<["lg" := twoItems]> ∅)
  ∧ (<["sm" := twoItems]> (<["lg" := twoItems]> ∅) : gmap string Layout)
      !! State.breakpoint (state σ') = Some twoItems.
Proof.
  apply (layout_callback_agrees wideProps (Props.withWidth 900 wideProps)
           wideWorld twoItems (<["sm" := twoItems]> (<["lg" := twoItems]> ∅))).
  vm_compute. apply list_elem_of_further, list_elem_of_here.
Defined.

Lemma width_alone_keeps_pinned_breakpoint_witness :
  componentWillReceiveProps viewportProps (Props.withWidth 1000 viewportProps)
    wideWorld
  = Returns tt
      (mkWorld (state wideWorld) (store wideWorld)
         (fired wideWorld ++
            [OnWidthChange 1000 (Props.margin viewportProps) 12
               (Props.containerPadding viewportProps)])).
Proof.
  apply (width_alone_keeps_pinned_breakpoint viewportProps 1000 wideWorld 12).
  - left. reflexivity.
  - vm_compute; reflexivity.
  - discriminate.
  - vm_compute; reflexivity.
Defined.

Lemma render_after_width_change_witness :
  let σ' := worldOf (componentWillReceiveProps wideProps
                       (Props.withWidth 900 wideProps) wideWorld) in
  ∃ rendered,
    render (Props.withWidth 900 wideProps) σ' = Returns rendered σ'
    ∧ Rendered.width rendered = Props.width (Props.withWidth 900 wideProps)
    ∧ Rendered.children rendered
      = Props.children (Props.withWidth 900 wideProps)
    ∧ Rendered.layout rendered = State.layout (state σ')
    ∧ Rendered.cols rendered = 6
    ∧ last (fired σ')
      = Some (OnWidthChange (Props.width (Props.withWidth 900 wideProps))
                (Props.margin (Props.withWidth 900 wideProps))
                (Rendered.cols rendered)
                (Props.containerPadding (Props.withWidth 900 wideProps))).
Proof.
  apply (render_after_width_change wideProps (Props.withWidth 900 wideProps)
           wideWorld).
  - vm_compute; reflexivity.
  - vm_compute; reflexivity.
  - vm_compute; reflexivity.
  - vm_compute; reflexivity.
Defined.

Lemma layoutsPropType_rejects_witness :
  (KeyNotInBreakpoints = KeyNotInBreakpoints
   ∧ ∃ name,
       is_Some ((layoutMaps strayKeyStore !!! Props.layouts wideProps) !! name)
       ∧ (numberMaps strayKeyStore !!! Props.breakpoints wideProps) !! name
         = None
       ∧ name ∉ objectPrototypeNames)
  ∨ (∃ name layout message,
       KeyNotInBreakpoints = InvalidLayout ("layouts." +:+ name) message
       ∧ (layoutMaps strayKeyStore !!! Props.layouts wideProps) !! name
         = Some layout
       ∧ (is_Some ((numberMaps strayKeyStore !!! Props.breakpoints wideProps)
                     !! name)
          ∨ name ∈ objectPrototypeNames)
       ∧ rejectEmpty layout ("layouts." +:+ name) = Some message).
Proof.
  apply (layoutsPropType_rejects rejectEmpty strayKeyStore wideProps
           KeyNotInBreakpoints).
  vm_compute; reflexivity.
Defined.

Example validator_on_host_layouts :
  layoutsPropType rejectEmpty hostStore wideProps = None
  ∧ layoutsPropType rejectEmpty hostStore emptyLayoutsProps = None
  ∧ layoutsPropType rejectEmpty strayKeyStore wideProps
    = Some KeyNotInBreakpoints.
Proof. repeat split; vm_compute; reflexivity. Qed.

(** The key "constructor" is [in] the breakpoints, though no key of them:
    it passes line 85, and what is thrown is [validateLayout]'s exception
    for the empty layout under "lg". *)
Example validator_on_inherited_key :
  layoutsPropType rejectEmpty inheritedKeyStore wideProps
  = Some (InvalidLayout "layouts.lg" "layouts.lg must not be empty")
  ∧ layoutsPropType (λ _ _, None) inheritedKeyStore wideProps = None.
Proof. split; vm_compute; reflexivity. Qed.

(** C6 at a transition from width 1300 to 1250 in which nothing but the
    width changes by value, the breakpoints map being a new object with
    the contents of the previous one: the breakpoint stays "lg",
    onWidthChange fires once, last, and onBreakpointChange and
    onLayoutChange fire before it. *)
Theorem width_only_change_fires_all_three :
  Props.width freshMapProps ≠ Props.width wideProps
  ∧ Props.viewportWidth freshMapProps = Props.viewportWidth wideProps
  ∧ Props.breakpoint freshMapProps = Props.breakpoint wideProps
  ∧ numberMaps (store wideWorld) !!! Props.breakpoints freshMapProps
    = numberMaps (store wideWorld) !!! Props.breakpoints wideProps
  ∧ Props.cols freshMapProps = Props.cols wideProps
  ∧ Props.layouts freshMapProps = Props.layouts wideProps
  ∧ nextBreakpoint (store wideWorld) wideProps
    = nextBreakpoint (store wideWorld) freshMapProps
  ∧ nextBreakpoint (store wideWorld) freshMapProps
    = State.breakpoint (state wideWorld)
  ∧ firedSince wideWorld
      (worldOf (componentWillReceiveProps wideProps freshMapProps wideWorld))
    = [OnBreakpointChange "lg" 12;
       OnLayoutChange twoItems (<["lg" := twoItems]> ∅);
       OnWidthChange 1250 (10, 10) 12 None].
Proof.
  split; [discriminate|]. repeat split; vm_compute; reflexivity.
Qed.
End MoreSession.
